(** * py_random_dot_org: the [BasicApi] client of [basic_api.py]

    A shallow embedding of the request pipeline of
    [src/py_random_dot_org/basic_api.py] and the properties of it that
    the specification states.

    Python objects are a tree type [value]; a method of [BasicApi] is a
    computation in a small state-and-exception monad [M] whose state
    holds the attributes of [self], the records handed to the logging
    module and the requests handed to the transport.  The two library
    calls of the module, [requests.post] and [json.loads], are the
    variables of the section [Client]. *)

From Stdlib Require Import ZArith List String Ascii Bool Lia.
From Stdlib Require Import SpecFloat DecimalString.
From Stdlib Require DecimalPos DecimalZ.
Import ListNotations.

Set Warnings "-register-all".
Local Open Scope string_scope.
Local Open Scope Z_scope.
Local Open Scope list_scope.

(** ** Python values *)

(** The objects that flow through the module: what [json.loads] builds
    ([None], [bool], [int], [float], [str], [list], [dict] with [str]
    keys), what callers pass as arguments, and the object [list[int]]
    (a [types.GenericAlias]) that one payload holds.  A [dict] lists its
    items in insertion order, each key once. *)
Inductive value : Type :=
| VNone
| VBool (b : bool)
| VInt (z : Z)
| VFloat (f : spec_float)
| VStr (s : string)
| VList (items : list value)
| VDict (items : list (string * value))
| VListIntAlias.

(** The exception classes the module meets.  [ConnectionError] is the
    builtin class (with its subclasses), the one the [except] clause of
    [_robust_http_request] names; [OtherException] is any other
    subclass of [Exception] a library call may raise. *)
Inductive exn : Type :=
| ConnectionError
| AttributeError
| KeyError
| TypeError
| JSONDecodeError
| OtherException (name : string).

Definition is_ConnectionError (e : exn) : bool :=
  match e with ConnectionError => true | _ => false end.

(** The outcome of a call: a returned value or a raised exception. *)
Inductive outcome (A : Type) : Type :=
| Return (a : A)
| Raise (e : exn).
Arguments Return {A} a.
Arguments Raise {A} e.

(** [d[k]] for a [str] key [k]: the item of a [dict], [KeyError] when
    the key is missing, [TypeError] on every other object ([list] and
    [str] indices must be integers, the rest is not subscriptable). *)
Fixpoint dict_get (items : list (string * value)) (k : string) : option value :=
  match items with
  | [] => None
  | (k', v) :: rest => if String.eqb k' k then Some v else dict_get rest k
  end.

Definition getitem (v : value) (k : string) : outcome value :=
  match v with
  | VDict items =>
      match dict_get items k with
      | Some x => Return x
      | None => Raise KeyError
      end
  | _ => Raise TypeError
  end.

(** [f < t] for a [float] [f] and an [int] [t]; Python compares the two
    exactly, and every comparison with NaN is false. *)
Definition float_lt_int (f : spec_float) (t : Z) : bool :=
  match f with
  | S754_zero _ => 0 <? t
  | S754_infinity negative => negative
  | S754_nan => false
  | S754_finite negative m e =>
      let n := if negative then Z.neg m else Z.pos m in
      if 0 <=? e then n * 2 ^ e <? t else n <? t * 2 ^ (- e)
  end.

(** [v < t] for an [int] [t]: defined on numbers ([bool] is a subclass
    of [int]), [TypeError] on the rest. *)
Definition lt_int (v : value) (t : Z) : outcome bool :=
  match v with
  | VBool b => Return (Z.b2z b <? t)
  | VInt z => Return (z <? t)
  | VFloat f => Return (float_lt_int f t)
  | _ => Raise TypeError
  end.

(** [str(n)] for an [int]. *)
Definition str_int (n : Z) : string := NilZero.string_of_int (Z.to_int n).

(** ** Logging and transport *)

Inductive level : Type := DEBUG | WARNING | ERROR.

(** The module logs through [logger = logging.getLogger(__name__)], and
    once through the [logging] module itself, which is the root logger. *)
Inductive logger_name : Type := ModuleLogger | RootLogger.

Record LogRecord : Type := mkLogRecord {
  name : logger_name;
  levelname : level;
  msg : string;
  exc_info : bool
}.

(** What [requests.post] returns: the two attributes the module reads. *)
Record Response : Type := mkResponse {
  status_code : Z;
  content : string
}.

(** ** The client object *)

Record BasicApi : Type := mkBasicApi {
  url : string;
  api_key : value;
  version_str : value;
  warn_below_quota_requests : Z;
  warn_below_quota_bits : Z
}.

Definition __init__ (api_key : value) (version : option Z)
    (version_str : option value)
    (warn_below_quota_requests warn_below_quota_bits : option Z) : BasicApi :=
  let version := match version with Some v => v | None => 4 end in
  let version_str := match version_str with Some v => v | None => VStr "4.0" end in
  let warn_below_quota_requests :=
    match warn_below_quota_requests with Some v => v | None => 0 end in
  let warn_below_quota_bits :=
    match warn_below_quota_bits with Some v => v | None => 0 end in
  {| url := ("https://api.random.org/json-rpc/" ++ str_int version ++ "/invoke")%string;
     api_key := api_key;
     version_str := version_str;
     warn_below_quota_requests := warn_below_quota_requests;
     warn_below_quota_bits := warn_below_quota_bits |}.

(** ** The monad of method bodies *)

(** The state a call works on: the attributes of [self], the records
    handed to the logging module (oldest first; whether a handler prints
    them is the host's configuration) and the calls made to
    [requests.post], each with its URL and its [json] argument. *)
Record state : Type := mkState {
  self : BasicApi;
  records : list LogRecord;
  requests : list (string * value)
}.

Definition M (A : Type) : Type := state -> outcome A * state.

Definition ret {A} (a : A) : M A := fun s => (Return a, s).

Definition raise {A} (e : exn) : M A := fun s => (Raise e, s).

Definition bind {A B} (m : M A) (k : A -> M B) : M B :=
  fun s =>
    match m s with
    | (Return a, s') => k a s'
    | (Raise e, s') => (Raise e, s')
    end.

(** A pure expression that may raise. *)
Definition lift {A} (o : outcome A) : M A := fun s => (o, s).

(** [try: body / except <classes>: handler]. *)
Definition try_except {A} (body : M A) (classes : exn -> bool) (handler : M A) : M A :=
  fun s =>
    match body s with
    | (Raise e, s') => if classes e then handler s' else (Raise e, s')
    | r => r
    end.

(** [except Exception] catches every class of [exn]. *)
Definition Exception (e : exn) : bool := true.

Definition getattr {A} (field : BasicApi -> A) : M A :=
  fun s => (Return (field (self s)), s).

Definition emit (r : LogRecord) : M unit :=
  fun s =>
    (Return tt,
     {| self := self s; records := records s ++ [r]; requests := requests s |}).

Declare Scope monad_scope.
Delimit Scope monad_scope with monad.
Notation "x <- m ;; k" := (bind m (fun x => k))
  (at level 61, m at next level, right associativity) : monad_scope.
Notation "m ;; k" := (bind m (fun _ => k))
  (at level 61, right associativity) : monad_scope.
Local Open Scope monad_scope.

(** The same sequencing for pure expressions. *)
Definition and_then {A B} (o : outcome A) (k : A -> outcome B) : outcome B :=
  match o with
  | Return a => k a
  | Raise e => Raise e
  end.

(** [logger.error], [logger.warning], [logger.debug], and
    [logging.warning] on the root logger. *)
Definition logger_error (m : string) (exc : bool) : M unit :=
  emit (mkLogRecord ModuleLogger ERROR m exc).

Definition logger_warning (m : string) : M unit :=
  emit (mkLogRecord ModuleLogger WARNING m false).

Definition logger_debug (m : string) : M unit :=
  emit (mkLogRecord ModuleLogger DEBUG m false).

Definition logging_warning (m : string) : M unit :=
  emit (mkLogRecord RootLogger WARNING m false).

(** [a and b] under [if], for an [int] [a]: [b] is evaluated only when
    [a] is nonzero. *)
Definition int_and (a : Z) (b : M bool) : M bool :=
  if a =? 0 then ret false else b.

(** [lambda x: x["random"]["data"]], the [data_retrieve_func] of the
    seven generating methods. *)
Definition random_data (x : value) : outcome value :=
  and_then (getitem x "random") (fun random => getitem random "data").

(** The [data_retrieve_func] of [get_usage]; a dict display evaluates
    its items in order. *)
Definition usage_mapping (x : value) : outcome value :=
  and_then (getitem x "bitsLeft") (fun bits_left =>
  and_then (getitem x "requestsLeft") (fun requests_left =>
  and_then (getitem x "totalBits") (fun total_bits =>
  and_then (getitem x "totalRequests") (fun total_requests =>
  Return (VDict [("bits_left", bits_left);
                 ("requests_left", requests_left);
                 ("total_bits", total_bits);
                 ("total_requests", total_requests)]))))).

(** A keyword argument with a default. *)
Definition default (d : value) (arg : option value) : value :=
  match arg with
  | Some v => v
  | None => d
  end.

(** ** Stand-ins for the two library calls *)

(** What the test suite patches in for [requests.post]: a [Mock] with a
    fixed [return_value], or with an exception as [side_effect]. *)
Definition answering (r : Response) : string -> value -> outcome Response :=
  fun _ _ => Return r.

Definition failing (e : exn) : string -> value -> outcome Response :=
  fun _ _ => Raise e.

(** A decoder that knows one body. *)
Definition decoding (body : string) (v : value) : string -> outcome value :=
  fun c => if String.eqb c body then Return v else Raise JSONDecodeError.

(** A response with status 200, as the test suite mocks it, one with
    status 404, and the decoder that takes their body to [v]. *)
Definition ok_response : Response := mkResponse 200 "response body".

Definition not_found_response : Response := mkResponse 404 "response body".

Definition loads (v : value) : string -> outcome value :=
  decoding "response body" v.

(** The client of the test suite, and one with both thresholds set. *)
Definition test_api : BasicApi :=
  __init__ (VStr "test_api_key") None None None None.

Definition watchful_api : BasicApi :=
  __init__ (VStr "test_api_key") None None (Some 10) (Some 10).

(** A result object for the generating methods. *)
Definition result_object (data requests_left bits_left : value) : value :=
  VDict [("result",
          VDict [("random", VDict [("data", data)]);
                 ("requestsLeft", requests_left);
                 ("bitsLeft", bits_left)])].

(** ** The methods of [BasicApi] *)

Section Client.

(** [requests.post(url, json=payload)]: a response or an exception. *)
Variable requests_post : string -> value -> outcome Response.

(** [json.loads(content)]: the decoded object or an exception. *)
Variable json_loads : string -> outcome value.

Definition post (u : string) (payload : value) : M Response :=
  fun s =>
    (requests_post u payload,
     {| self := self s; records := records s;
        requests := requests s ++ [(u, payload)] |}).

(** Returns [None] after a [ConnectionError], the response otherwise. *)
Definition _robust_http_request (payload : value) (method : string)
    : M (option Response) :=
  try_except
    (u <- getattr url ;;
     response <- post u payload ;;
     ret (Some response))
    is_ConnectionError
    (logger_error
       ("A ConnectionError occured during basicApi." ++ method ++ "()")%string true ;;
     ret None).

(** Returns [None] after any exception of the [try] block, the triple
    [(response_data, requests_left, bits_left)] otherwise. *)
Definition _extract_result (response : option Response)
    (data_retrieve_func : option (value -> outcome value)) (method : string)
    : M (option (value * value * value)) :=
  let default_func := fun x : value => Return x in
  let data_retrieve_func :=
    match data_retrieve_func with
    | None => default_func
    | Some f => f
    end in
  try_except
    (body <- match response with
             | Some r => ret (content r)
             | None => raise AttributeError
             end ;;
     decoded <- lift (json_loads body) ;;
     response_result <- lift (getitem decoded "result") ;;
     response_data <- lift (data_retrieve_func response_result) ;;
     requests_left <- lift (getitem response_result "requestsLeft") ;;
     bits_left <- lift (getitem response_result "bitsLeft") ;;
     ret (Some (response_data, requests_left, bits_left)))
    Exception
    (logger_error
       ("Could not decode the http response of basicApi." ++ method ++ "()")%string
       false ;;
     ret None).

Definition _is_response_successful (status_code : Z) (method : string)
    : M bool :=
  if negb ((200 <=? status_code) && (status_code <=? 299)) then
    logger_warning
      ("Response Code indicates non succesful request for basicApi."
       ++ method ++ "()")%string ;;
    ret true
  else ret false.

Definition _is_low_quota (requests_left bits_left : value) : M bool :=
  warn_requests <- getattr warn_below_quota_requests ;;
  low_requests <- int_and warn_requests (lift (lt_int requests_left warn_requests)) ;;
  if low_requests then
    logger_warning "Low Request-Quota for API." ;;
    ret true
  else
    warn_bits <- getattr warn_below_quota_bits ;;
    low_bits <- int_and warn_bits (lift (lt_int bits_left warn_bits)) ;;
    if low_bits then
      logging_warning "Low Bit-Quota for API." ;;
      ret true
    else ret false.

Definition _log_sucess (method : string) : M unit :=
  logger_debug ("Sucessfully retrieved basicApi." ++ method ++ "()")%string.

(** The pipeline of one request.  Unpacking the result of
    [_extract_result] into three names raises [TypeError] when that
    result is [None]. *)
Definition _request (method : string) (request_payload : value)
    (data_retrieve_func : option (value -> outcome value)) : M value :=
  response <- _robust_http_request request_payload "generate_integers" ;;
  match response with
  | Some r => _is_response_successful (status_code r) "generate_integers" ;; ret tt
  | None => ret tt
  end ;;
  extracted <- _extract_result response data_retrieve_func "generate_integers" ;;
  match extracted with
  | None => raise TypeError
  | Some (response_data, requests_left, bits_left) =>
      _is_low_quota requests_left bits_left ;;
      _log_sucess "generate_integers" ;;
      ret response_data
  end.

Definition generate_integers (num minimum maximum : value)
    (replacement base pregenerateRandomiztion id : option value) : M value :=
  let replacement := default (VBool true) replacement in
  let base := default (VInt 10) base in
  let id := default (VInt 1) id in
  version_str <- getattr version_str ;;
  api_key <- getattr api_key ;;
  let payload :=
    VDict [("jsonrpc", version_str);
           ("method", VStr "generateIntegers");
           ("params", VDict [("apiKey", api_key);
                             ("n", num);
                             ("min", minimum);
                             ("max", maximum);
                             ("replacement", replacement);
                             ("base", base)]);
           ("id", id)] in
  _request "generate_integers" payload (Some random_data).

Definition generate_integer_sequences (num length minimum maximum : value)
    (replacement base id : option value) : M value :=
  let replacement := default VNone replacement in
  let base := default (VInt 10) base in
  let id := default (VInt 1) id in
  version_str <- getattr version_str ;;
  api_key <- getattr api_key ;;
  let payload :=
    VDict [("jsonrpc", version_str);
           ("method", VStr "generateIntegerSequences");
           ("params", VDict [("apiKey", api_key);
                             ("n", num);
                             ("length", length);
                             ("min", minimum);
                             ("max", maximum);
                             ("replacement", replacement);
                             ("base", VListIntAlias)]);
           ("id", id)] in
  _request "generate_integer_sequences" payload (Some random_data).

Definition generate_decimal_fractions (num decimal_places : value)
    (replacement id : option value) : M value :=
  let replacement := default (VBool true) replacement in
  let id := default (VInt 1) id in
  version_str <- getattr version_str ;;
  api_key <- getattr api_key ;;
  let payload :=
    VDict [("jsonrpc", version_str);
           ("method", VStr "generateDecimalFractions");
           ("params", VDict [("apiKey", api_key);
                             ("n", num);
                             ("decimalPlaces", decimal_places);
                             ("replacement", replacement)]);
           ("id", id)] in
  _request "generate_decimal_fractions" payload (Some random_data).

Definition generate_gaussians
    (num mean standard_deviation significant_digits : value)
    (id : option value) : M value :=
  let id := default (VInt 1) id in
  version_str <- getattr version_str ;;
  api_key <- getattr api_key ;;
  let payload :=
    VDict [("jsonrpc", version_str);
           ("method", VStr "generateGaussians");
           ("params", VDict [("apiKey", api_key);
                             ("n", num);
                             ("mean", mean);
                             ("standardDeviation", standard_deviation);
                             ("significantDigits", significant_digits)]);
           ("id", id)] in
  _request "generate_gaussians" payload (Some random_data).

Definition generate_strings (num length characters : value)
    (replacement id : option value) : M value :=
  let replacement := default (VBool true) replacement in
  let id := default (VInt 1) id in
  version_str <- getattr version_str ;;
  api_key <- getattr api_key ;;
  let payload :=
    VDict [("jsonrpc", version_str);
           ("method", VStr "generateStrings");
           ("params", VDict [("apiKey", api_key);
                             ("n", num);
                             ("length", length);
                             ("characters", characters);
                             ("replacement", replacement)]);
           ("id", id)] in
  _request "generate_strings" payload (Some random_data).

Definition generate_uuids (num : value) (id : option value) : M value :=
  let id := default (VInt 1) id in
  version_str <- getattr version_str ;;
  api_key <- getattr api_key ;;
  let payload :=
    VDict [("jsonrpc", version_str);
           ("method", VStr "generateUUIDs");
           ("params", VDict [("apiKey", api_key); ("n", num)]);
           ("id", id)] in
  _request "generate_uuids" payload (Some random_data).

Definition generate_blobs (num size : value) (id : option value) : M value :=
  let id := default (VInt 1) id in
  version_str <- getattr version_str ;;
  api_key <- getattr api_key ;;
  let payload :=
    VDict [("jsonrpc", version_str);
           ("method", VStr "generateBlobs");
           ("params", VDict [("apiKey", api_key);
                             ("n", num);
                             ("size", size)]);
           ("id", id)] in
  _request "generate_blobs" payload (Some random_data).

Definition get_usage (id : option value) : M value :=
  let id := default (VInt 1) id in
  version_str <- getattr version_str ;;
  api_key <- getattr api_key ;;
  let payload :=
    VDict [("jsonrpc", version_str);
           ("method", VStr "getUsage");
           ("params", VDict [("apiKey", api_key)]);
           ("id", id)] in
  _request "get_usage" payload (Some usage_mapping).


(** ** The public surface *)

(** One call of a public method with its arguments. *)
Inductive operation : Type :=
| GenerateIntegers (num minimum maximum : value)
    (replacement base pregenerateRandomiztion id : option value)
| GenerateIntegerSequences (num length minimum maximum : value)
    (replacement base id : option value)
| GenerateDecimalFractions (num decimal_places : value)
    (replacement id : option value)
| GenerateGaussians (num mean standard_deviation significant_digits : value)
    (id : option value)
| GenerateStrings (num length characters : value) (replacement id : option value)
| GenerateUuids (num : value) (id : option value)
| GenerateBlobs (num size : value) (id : option value)
| GetUsage (id : option value).

Definition invoke (op : operation) : M value :=
  match op with
  | GenerateIntegers num minimum maximum replacement base pre id =>
      generate_integers num minimum maximum replacement base pre id
  | GenerateIntegerSequences num length minimum maximum replacement base id =>
      generate_integer_sequences num length minimum maximum replacement base id
  | GenerateDecimalFractions num decimal_places replacement id =>
      generate_decimal_fractions num decimal_places replacement id
  | GenerateGaussians num mean standard_deviation significant_digits id =>
      generate_gaussians num mean standard_deviation significant_digits id
  | GenerateStrings num length characters replacement id =>
      generate_strings num length characters replacement id
  | GenerateUuids num id => generate_uuids num id
  | GenerateBlobs num size id => generate_blobs num size id
  | GetUsage id => get_usage id
  end.

(** The state in which a call on the client [api] starts. *)
Definition fresh (api : BasicApi) : state :=
  {| self := api; records := []; requests := [] |}.

(** A caller that makes the calls [ops] one after the other on the same
    client, going on after a call that raises. *)
Fixpoint session (ops : list operation) (s : state) : state :=
  match ops with
  | [] => s
  | op :: rest => session rest (snd (invoke op s))
  end.

(** ** Vocabulary of the statements *)

(** The records the module can log.  Four of them carry a method name. *)
Definition connection_error_record (method : string) : LogRecord :=
  mkLogRecord ModuleLogger ERROR
    ("A ConnectionError occured during basicApi." ++ method ++ "()")%string true.

Definition non_2xx_record (method : string) : LogRecord :=
  mkLogRecord ModuleLogger WARNING
    ("Response Code indicates non succesful request for basicApi."
     ++ method ++ "()")%string false.

Definition decode_error_record (method : string) : LogRecord :=
  mkLogRecord ModuleLogger ERROR
    ("Could not decode the http response of basicApi." ++ method ++ "()")%string
    false.

Definition success_record (method : string) : LogRecord :=
  mkLogRecord ModuleLogger DEBUG
    ("Sucessfully retrieved basicApi." ++ method ++ "()")%string false.

Definition low_requests_warned : LogRecord :=
  mkLogRecord ModuleLogger WARNING "Low Request-Quota for API." false.

Definition low_bits_warned : LogRecord :=
  mkLogRecord RootLogger WARNING "Low Bit-Quota for API." false.

(** The four as [_request] logs them. *)
Definition connection_error_logged : LogRecord :=
  connection_error_record "generate_integers".

Definition non_2xx_warned : LogRecord := non_2xx_record "generate_integers".

Definition decode_error_logged : LogRecord :=
  decode_error_record "generate_integers".

Definition success_logged : LogRecord := success_record "generate_integers".

(** The state [s] with [new] records logged and [sent] requests made. *)
Definition after (s : state) (new : list LogRecord) (sent : list (string * value))
    : state :=
  {| self := self s; records := records s ++ new; requests := requests s ++ sent |}.

(** The [method=] argument, the payload and the [data_retrieve_func] a
    public method hands to [_request]; [invoke_request] below proves
    that they are the ones of the method bodies. *)
Definition method_of (op : operation) : string :=
  match op with
  | GenerateIntegers _ _ _ _ _ _ _ => "generate_integers"
  | GenerateIntegerSequences _ _ _ _ _ _ _ => "generate_integer_sequences"
  | GenerateDecimalFractions _ _ _ _ => "generate_decimal_fractions"
  | GenerateGaussians _ _ _ _ _ => "generate_gaussians"
  | GenerateStrings _ _ _ _ _ => "generate_strings"
  | GenerateUuids _ _ => "generate_uuids"
  | GenerateBlobs _ _ _ => "generate_blobs"
  | GetUsage _ => "get_usage"
  end.

Definition envelope (api : BasicApi) (rpc_method : string)
    (params : list (string * value)) (id : option value) : value :=
  VDict [("jsonrpc", version_str api);
         ("method", VStr rpc_method);
         ("params", VDict (("apiKey", api_key api) :: params));
         ("id", default (VInt 1) id)].

Definition payload_of (api : BasicApi) (op : operation) : value :=
  match op with
  | GenerateIntegers num minimum maximum replacement base _ id =>
      envelope api "generateIntegers"
        [("n", num); ("min", minimum); ("max", maximum);
         ("replacement", default (VBool true) replacement);
         ("base", default (VInt 10) base)] id
  | GenerateIntegerSequences num length minimum maximum replacement _ id =>
      envelope api "generateIntegerSequences"
        [("n", num); ("length", length); ("min", minimum); ("max", maximum);
         ("replacement", default VNone replacement);
         ("base", VListIntAlias)] id
  | GenerateDecimalFractions num decimal_places replacement id =>
      envelope api "generateDecimalFractions"
        [("n", num); ("decimalPlaces", decimal_places);
         ("replacement", default (VBool true) replacement)] id
  | GenerateGaussians num mean standard_deviation significant_digits id =>
      envelope api "generateGaussians"
        [("n", num); ("mean", mean);
         ("standardDeviation", standard_deviation);
         ("significantDigits", significant_digits)] id
  | GenerateStrings num length characters replacement id =>
      envelope api "generateStrings"
        [("n", num); ("length", length); ("characters", characters);
         ("replacement", default (VBool true) replacement)] id
  | GenerateUuids num id => envelope api "generateUUIDs" [("n", num)] id
  | GenerateBlobs num size id =>
      envelope api "generateBlobs" [("n", num); ("size", size)] id
  | GetUsage id => envelope api "getUsage" [] id
  end.

Definition data_retrieve_func_of (op : operation) : value -> outcome value :=
  match op with
  | GetUsage _ => usage_mapping
  | _ => random_data
  end.

(** The [try] block of [_extract_result] on a response body, as one
    pure expression. *)
Definition extraction (f : value -> outcome value) (body : string)
    : outcome (value * value * value) :=
  and_then (json_loads body) (fun decoded =>
  and_then (getitem decoded "result") (fun response_result =>
  and_then (f response_result) (fun response_data =>
  and_then (getitem response_result "requestsLeft") (fun requests_left =>
  and_then (getitem response_result "bitsLeft") (fun bits_left =>
  Return (response_data, requests_left, bits_left)))))).

(** The places where the [try] block can raise on a body. *)
Inductive extraction_fails (f : value -> outcome value) (body : string) : Prop :=
| undecodable_body e :
    json_loads body = Raise e -> extraction_fails f body
| no_result decoded e :
    json_loads body = Return decoded ->
    getitem decoded "result" = Raise e -> extraction_fails f body
| no_data decoded result e :
    json_loads body = Return decoded ->
    getitem decoded "result" = Return result ->
    f result = Raise e -> extraction_fails f body
| no_requests_left decoded result e :
    json_loads body = Return decoded ->
    getitem decoded "result" = Return result ->
    getitem result "requestsLeft" = Raise e -> extraction_fails f body
| no_bits_left decoded result e :
    json_loads body = Return decoded ->
    getitem decoded "result" = Return result ->
    getitem result "bitsLeft" = Raise e -> extraction_fails f body.

(** A body with the result object, the projected data and both
    counters in place. *)
Definition well_formed (f : value -> outcome value) (body : string)
    (data requests_left bits_left : value) : Prop :=
  exists decoded result,
    json_loads body = Return decoded /\
    getitem decoded "result" = Return result /\
    f result = Return data /\
    getitem result "requestsLeft" = Return requests_left /\
    getitem result "bitsLeft" = Return bits_left.

(** The objects [<] compares with an [int]. *)
Definition is_number (v : value) : bool :=
  match v with
  | VBool _ | VInt _ | VFloat _ => true
  | _ => false
  end.

Definition is_2xx (status_code : Z) : bool :=
  (200 <=? status_code) && (status_code <=? 299).

(** What [_is_response_successful] logs. *)
Definition status_records (status_code : Z) : list LogRecord :=
  if is_2xx status_code then [] else [non_2xx_warned].

(** What [_is_low_quota] logs, or the exception of its comparison. *)
Definition quota_records (api : BasicApi) (requests_left bits_left : value)
    : outcome (list LogRecord) :=
  let test (threshold : Z) (counter : value) :=
    if threshold =? 0 then Return false else lt_int counter threshold in
  and_then (test (warn_below_quota_requests api) requests_left) (fun low_requests =>
  if low_requests then Return [low_requests_warned]
  else
    and_then (test (warn_below_quota_bits api) bits_left) (fun low_bits =>
    if low_bits then Return [low_bits_warned] else Return [])).

(** One run of [_request], summarised: its outcome and its records. *)
Definition pipeline (api : BasicApi) (payload : value)
    (f : value -> outcome value) : outcome value * list LogRecord :=
  match requests_post (url api) payload with
  | Raise e =>
      if is_ConnectionError e
      then (Raise TypeError, [connection_error_logged; decode_error_logged])
      else (Raise e, [])
  | Return r =>
      let warned := status_records (status_code r) in
      match extraction f (content r) with
      | Raise _ => (Raise TypeError, warned ++ [decode_error_logged])
      | Return (response_data, requests_left, bits_left) =>
          match quota_records api requests_left bits_left with
          | Raise e => (Raise e, warned)
          | Return quota => (Return response_data, warned ++ quota ++ [success_logged])
          end
      end
  end.

(** Two clients with the same configuration up to the two thresholds. *)
Definition same_but_thresholds (a b : BasicApi) : Prop :=
  url a = url b /\ api_key a = api_key b /\ version_str a = version_str b.

(** The [id] argument of a call, before its default. *)
Definition id_of (op : operation) : option value :=
  match op with
  | GenerateIntegers _ _ _ _ _ _ id => id
  | GenerateIntegerSequences _ _ _ _ _ _ id => id
  | GenerateDecimalFractions _ _ _ id => id
  | GenerateGaussians _ _ _ _ id => id
  | GenerateStrings _ _ _ _ id => id
  | GenerateUuids _ id => id
  | GenerateBlobs _ _ id => id
  | GetUsage id => id
  end.

(** ** The pipeline, step by step *)

Example url_default :
  url test_api = "https://api.random.org/json-rpc/4/invoke".
Proof. reflexivity. Qed.

Example str_int_samples :
  str_int 0 = "0" /\ str_int 42 = "42" /\ str_int (-7) = "-7".
Proof. repeat split. Qed.

(** A method name can be read back from a record that carries one. *)
Lemma append_inv_head (p a b : string) :
  (p ++ a)%string = (p ++ b)%string -> a = b.
Proof.
  induction p as [ | c p IH]; simpl; [trivial | ].
  intros [= H]. now apply IH.
Qed.

Lemma list_ascii_of_append (a b : string) :
  list_ascii_of_string (a ++ b)%string
  = list_ascii_of_string a ++ list_ascii_of_string b.
Proof.
  induction a as [ | c a IH]; simpl; [reflexivity | now rewrite IH].
Qed.

Lemma append_inv_tail (a b c : string) :
  (a ++ c)%string = (b ++ c)%string -> a = b.
Proof.
  intros H. apply (f_equal list_ascii_of_string) in H.
  rewrite !list_ascii_of_append in H. apply app_inv_tail in H.
  apply (f_equal string_of_list_ascii) in H.
  now rewrite !string_of_list_ascii_of_string in H.
Qed.

Lemma tagged_message_inj (prefix m m' : string) :
  (prefix ++ m ++ "()")%string = (prefix ++ m' ++ "()")%string -> m = m'.
Proof.
  intros H. apply append_inv_head in H. now apply append_inv_tail in H.
Qed.

Lemma tagged_record_method (r : LogRecord) (m m' : string) :
  In r [connection_error_record m; non_2xx_record m;
        decode_error_record m; low_requests_warned; low_bits_warned;
        success_record m] ->
  In r [connection_error_record m'; non_2xx_record m';
        decode_error_record m'; success_record m'] ->
  m' = m.
Proof.
  intros Hsix Hfour. cbn [In] in Hsix, Hfour.
  repeat match goal with
         | H : _ \/ _ |- _ => destruct H as [H | H]
         | H : False |- _ => contradiction H
         end;
    subst r;
    match goal with
    | H : _ = _ :> LogRecord |- _ =>
        pose proof (f_equal name H) as Hname;
        pose proof (f_equal levelname H) as Hlevel;
        pose proof (f_equal exc_info H) as Hexc;
        pose proof (f_equal msg H) as Hmsg
    end;
    cbn [name levelname exc_info msg connection_error_record non_2xx_record
           decode_error_record success_record low_requests_warned
           low_bits_warned] in *;
    try discriminate;
    eapply tagged_message_inj; exact Hmsg.
Qed.

Lemma after_nil (s : state) : after s [] [] = s.
Proof.
  destruct s; unfold after; simpl. now rewrite !app_nil_r.
Qed.

Lemma invoke_request (op : operation) (s : state) :
  invoke op s
  = _request (method_of op) (payload_of (self s) op)
      (Some (data_retrieve_func_of op)) s.
Proof.
  destruct op; reflexivity.
Qed.

Lemma robust_http_request_run (payload : value) (method : string) (s : state) :
  _robust_http_request payload method s
  = match requests_post (url (self s)) payload with
    | Return r => (Return (Some r), after s [] [(url (self s), payload)])
    | Raise e =>
        if is_ConnectionError e
        then (Return None,
              after s [connection_error_record method] [(url (self s), payload)])
        else (Raise e, after s [] [(url (self s), payload)])
    end.
Proof.
  unfold _robust_http_request, try_except, bind, getattr, post, ret,
    logger_error, emit, after; simpl.
  destruct (requests_post (url (self s)) payload) as [r | e]; simpl.
  - now rewrite app_nil_r.
  - destruct (is_ConnectionError e); simpl; [reflexivity | now rewrite app_nil_r].
Qed.

Lemma extract_result_run (r : Response) (f : value -> outcome value)
    (method : string) (s : state) :
  _extract_result (Some r) (Some f) method s
  = match extraction f (content r) with
    | Return triple => (Return (Some triple), s)
    | Raise _ =>
        (Return None, after s [decode_error_record method] [])
    end.
Proof.
  unfold _extract_result, extraction, try_except, bind, lift, ret, Exception,
    logger_error, emit, after, and_then; simpl.
  rewrite app_nil_r.
  destruct (json_loads (content r)) as [decoded | ]; [ | reflexivity].
  destruct (getitem decoded "result") as [result | ]; [ | reflexivity].
  destruct (f result) as [data | ]; [ | reflexivity].
  destruct (getitem result "requestsLeft") as [requests_left | ]; [ | reflexivity].
  destruct (getitem result "bitsLeft") as [bits_left | ]; reflexivity.
Qed.

Lemma extract_result_none (f : option (value -> outcome value))
    (method : string) (s : state) :
  _extract_result None f method s
  = (Return None, after s [decode_error_record method] []).
Proof.
  unfold _extract_result, try_except, bind, raise, ret, Exception, logger_error,
    emit, after; simpl.
  now rewrite app_nil_r.
Qed.

Lemma is_2xx_spec (code : Z) : is_2xx code = true <-> 200 <= code <= 299.
Proof.
  unfold is_2xx. rewrite andb_true_iff, !Z.leb_le. tauto.
Qed.

Lemma is_response_successful_run (code : Z) (s : state) :
  _is_response_successful code "generate_integers" s
  = (Return (negb (is_2xx code)), after s (status_records code) []).
Proof.
  unfold _is_response_successful, status_records, is_2xx.
  destruct ((200 <=? code) && (code <=? 299)); simpl.
  - now rewrite after_nil.
  - unfold bind, logger_warning, emit, ret, after; simpl. now rewrite app_nil_r.
Qed.

Lemma is_low_quota_run (requests_left bits_left : value) (s : state) :
  _is_low_quota requests_left bits_left s
  = match quota_records (self s) requests_left bits_left with
    | Return quota => (Return (negb (Nat.eqb (List.length quota) 0)), after s quota [])
    | Raise e => (Raise e, s)
    end.
Proof.
  unfold _is_low_quota, quota_records, bind, getattr, int_and, lift, ret,
    and_then, logger_warning, logging_warning, emit, after; simpl.
  destruct (warn_below_quota_requests (self s) =? 0); simpl.
  - destruct (warn_below_quota_bits (self s) =? 0); simpl.
    + destruct s; simpl. now rewrite !app_nil_r.
    + destruct (lt_int bits_left _) as [[ | ] | ]; simpl; try reflexivity.
      * now rewrite app_nil_r.
      * destruct s; simpl. now rewrite !app_nil_r.
  - destruct (lt_int requests_left _) as [[ | ] | ]; simpl; try reflexivity.
    + now rewrite app_nil_r.
    + destruct (warn_below_quota_bits (self s) =? 0); simpl.
      * destruct s; simpl. now rewrite !app_nil_r.
      * destruct (lt_int bits_left _) as [[ | ] | ]; simpl; try reflexivity.
        -- now rewrite app_nil_r.
        -- destruct s; simpl. now rewrite !app_nil_r.
Qed.

(** [_request] runs as [pipeline] says: same outcome, and the state
    grows by the records of [pipeline] and by the one request sent. *)
Lemma request_pipeline (method : string) (payload : value)
    (f : value -> outcome value) (s : state) :
  _request method payload (Some f) s
  = (fst (pipeline (self s) payload f),
     after s (snd (pipeline (self s) payload f)) [(url (self s), payload)]).
Proof.
  unfold _request, pipeline.
  unfold bind at 1. rewrite robust_http_request_run.
  destruct (requests_post (url (self s)) payload) as [r | e].
  - unfold bind at 1. unfold bind at 1.
    rewrite is_response_successful_run. cbn [ret].
    unfold bind at 1. rewrite extract_result_run.
    destruct (extraction f (content r)) as [[[data requests_left] bits_left] | e].
    + unfold bind at 1. rewrite is_low_quota_run.
      change (self (after (after s [] [(url (self s), payload)])
                     (status_records (status_code r)) []))
        with (self s).
      destruct (quota_records (self s) requests_left bits_left) as [quota | e];
        cbn [fst snd].
      * unfold bind, _log_sucess, logger_debug, emit, ret, after; simpl.
        now rewrite !app_nil_r, <- !app_assoc.
      * unfold after; simpl. now rewrite !app_nil_r.
    + unfold raise, after; simpl. now rewrite !app_nil_r, <- !app_assoc.
  - destruct (is_ConnectionError e); cbn [fst snd].
    + unfold bind at 1. unfold bind at 1. cbn [ret].
      unfold bind at 1. rewrite extract_result_none.
      unfold raise, after; simpl. now rewrite !app_nil_r, <- !app_assoc.
    + reflexivity.
Qed.


Lemma well_formed_extraction (f : value -> outcome value) (body : string)
    (data requests_left bits_left : value) :
  well_formed f body data requests_left bits_left <->
  extraction f body = Return (data, requests_left, bits_left).
Proof.
  unfold well_formed, extraction, and_then. split.
  - intros (decoded & result & Hd & Hr & Hf & Hq & Hb).
    now rewrite Hd, Hr, Hf, Hq, Hb.
  - destruct (json_loads body) as [decoded | ]; [ | discriminate].
    destruct (getitem decoded "result") as [result | ] eqn:Hr; [ | discriminate].
    destruct (f result) as [d | ] eqn:Hf; [ | discriminate].
    destruct (getitem result "requestsLeft") as [q | ] eqn:Hq; [ | discriminate].
    destruct (getitem result "bitsLeft") as [b | ] eqn:Hb; [ | discriminate].
    intros [= <- <- <-]. now exists decoded, result.
Qed.

Lemma extraction_fails_raises (f : value -> outcome value) (body : string) :
  extraction_fails f body <-> exists e, extraction f body = Raise e.
Proof.
  unfold extraction, and_then. split.
  - intros [e H | decoded e H1 H2 | decoded result e H1 H2 H3
           | decoded result e H1 H2 H3 | decoded result e H1 H2 H3].
    + rewrite H. now exists e.
    + rewrite H1, H2. now exists e.
    + rewrite H1, H2, H3. now exists e.
    + rewrite H1, H2, H3. destruct (f result) as [d | e']; eauto.
    + rewrite H1, H2, H3. destruct (f result) as [d | e']; eauto.
      destruct (getitem result "requestsLeft") as [q | e']; eauto.
  - intros [e H].
    destruct (json_loads body) as [decoded | e1] eqn:H1;
      [ | now apply undecodable_body with e1].
    destruct (getitem decoded "result") as [result | e2] eqn:H2;
      [ | now apply no_result with decoded e2].
    destruct (f result) as [d | e3] eqn:H3;
      [ | now apply no_data with decoded result e3].
    destruct (getitem result "requestsLeft") as [q | e4] eqn:H4;
      [ | now apply no_requests_left with decoded result e4].
    destruct (getitem result "bitsLeft") as [b | e5] eqn:H5;
      [ discriminate | now apply no_bits_left with decoded result e5].
Qed.

Lemma lt_int_number (v : value) (t : Z) :
  is_number v = true -> exists b, lt_int v t = Return b.
Proof.
  destruct v; simpl; try discriminate; eauto.
Qed.

(** On numbers the quota check cannot raise, and what it logs is made
    of the two quota warnings. *)
Lemma quota_records_numbers (api : BasicApi) (requests_left bits_left : value) :
  is_number requests_left = true -> is_number bits_left = true ->
  exists quota, quota_records api requests_left bits_left = Return quota.
Proof.
  intros Hq Hb. unfold quota_records, and_then.
  destruct (lt_int_number requests_left (warn_below_quota_requests api) Hq) as [b1 E1].
  destruct (lt_int_number bits_left (warn_below_quota_bits api) Hb) as [b2 E2].
  rewrite E1, E2.
  destruct (warn_below_quota_requests api =? 0), (warn_below_quota_bits api =? 0),
    b1, b2; eauto.
Qed.

Lemma quota_records_warnings (api : BasicApi) (requests_left bits_left : value)
    (quota : list LogRecord) :
  quota_records api requests_left bits_left = Return quota ->
  quota = [] \/ quota = [low_requests_warned] \/ quota = [low_bits_warned].
Proof.
  unfold quota_records, and_then.
  destruct (if warn_below_quota_requests api =? 0 then _ else _) as [[ | ] | ];
    [ intros [= <-]; auto | | discriminate ].
  destruct (if warn_below_quota_bits api =? 0 then _ else _) as [[ | ] | ];
    [ intros [= <-]; auto | intros [= <-]; auto | discriminate ].
Qed.

(** A well-formed body with numeric counters: the data is returned and
    the run ends on the success record. *)
Lemma pipeline_well_formed (api : BasicApi) (payload : value)
    (f : value -> outcome value) (r : Response)
    (data requests_left bits_left : value) :
  requests_post (url api) payload = Return r ->
  well_formed f (content r) data requests_left bits_left ->
  is_number requests_left = true -> is_number bits_left = true ->
  exists quota,
    quota_records api requests_left bits_left = Return quota /\
    pipeline api payload f
    = (Return data, status_records (status_code r) ++ quota ++ [success_logged]).
Proof.
  intros Hpost Hwf Hq Hb.
  destruct (quota_records_numbers api _ _ Hq Hb) as [quota Hquota].
  exists quota. split; [assumption | ].
  unfold pipeline. rewrite Hpost.
  apply well_formed_extraction in Hwf. now rewrite Hwf, Hquota.
Qed.

Lemma pipeline_extraction_fails (api : BasicApi) (payload : value)
    (f : value -> outcome value) (r : Response) :
  requests_post (url api) payload = Return r ->
  extraction_fails f (content r) ->
  pipeline api payload f
  = (Raise TypeError, status_records (status_code r) ++ [decode_error_logged]).
Proof.
  intros Hpost Hfail. apply extraction_fails_raises in Hfail as [e He].
  unfold pipeline. now rewrite Hpost, He.
Qed.

Ltac among_the_six :=
  repeat (apply Forall_cons; [simpl; auto 10 | ]); apply Forall_nil.

(** Every record of a run is one of the six. *)
Lemma pipeline_records (api : BasicApi) (payload : value)
    (f : value -> outcome value) :
  Forall (fun r => In r [connection_error_logged; non_2xx_warned;
                         decode_error_logged; low_requests_warned;
                         low_bits_warned; success_logged])
    (snd (pipeline api payload f)).
Proof.
  assert (Hstatus : forall code,
    Forall (fun r => In r [connection_error_logged; non_2xx_warned;
                           decode_error_logged; low_requests_warned;
                           low_bits_warned; success_logged])
      (status_records code)).
  { intros code. unfold status_records.
    destruct (is_2xx code); among_the_six. }
  unfold pipeline.
  destruct (requests_post (url api) payload) as [r | e].
  - destruct (extraction f (content r)) as [[[data q] b] | e]; cbn [snd].
    + destruct (quota_records api q b) as [quota | e] eqn:Hquota; cbn [snd].
      * apply Forall_app; split; [apply Hstatus | ].
        apply quota_records_warnings in Hquota as [-> | [-> | ->]];
          among_the_six.
      * apply Hstatus.
    + apply Forall_app; split; [apply Hstatus | among_the_six].
  - destruct (is_ConnectionError e); cbn [snd]; among_the_six.
Qed.


(** An exception of the transport that is no [ConnectionError] reaches
    the caller as it is, with nothing logged. *)
Lemma transport_exception_propagates (op : operation) (s : state) (e : exn) :
  requests_post (url (self s)) (payload_of (self s) op) = Raise e ->
  is_ConnectionError e = false ->
  invoke op s = (Raise e, after s [] [(url (self s), payload_of (self s) op)]).
Proof.
  intros Hpost He. rewrite invoke_request, request_pipeline.
  unfold pipeline. now rewrite Hpost, He.
Qed.

(** [_is_low_quota] on integer counters, case by case: the test of the
    bits is reached only when the test of the requests is negative. *)
Lemma is_low_quota_int_counters (requests_left bits_left : Z) (s : state) :
  _is_low_quota (VInt requests_left) (VInt bits_left) s
  = if negb (warn_below_quota_requests (self s) =? 0)
       && (requests_left <? warn_below_quota_requests (self s))
    then (Return true, after s [low_requests_warned] [])
    else if negb (warn_below_quota_bits (self s) =? 0)
            && (bits_left <? warn_below_quota_bits (self s))
    then (Return true, after s [low_bits_warned] [])
    else (Return false, s).
Proof.
  rewrite is_low_quota_run. unfold quota_records, and_then, lt_int.
  destruct (warn_below_quota_requests (self s) =? 0),
    (requests_left <? warn_below_quota_requests (self s)),
    (warn_below_quota_bits (self s) =? 0),
    (bits_left <? warn_below_quota_bits (self s));
    cbn [negb andb List.length Nat.eqb]; try reflexivity;
    now rewrite after_nil.
Qed.

Lemma payload_of_same (a b : BasicApi) (op : operation) :
  same_but_thresholds a b -> payload_of a op = payload_of b op.
Proof.
  intros (_ & Hkey & Hversion).
  destruct op; unfold payload_of, envelope; now rewrite Hkey, Hversion.
Qed.

(** ** The statements of the specification *)

(** Claim C1, as the code runs it.  When [requests.post] raises
    [ConnectionError], a public method does not return [None]: it logs
    the connection error, logs an extraction error for the missing
    response, and raises [TypeError] to its caller, the one request
    having been sent. *)
Theorem connection_error_raises_TypeError (op : operation) (s : state) :
  requests_post (url (self s)) (payload_of (self s) op) = Raise ConnectionError ->
  invoke op s
  = (Raise TypeError,
     after s [connection_error_logged; decode_error_logged]
       [(url (self s), payload_of (self s) op)]).
Proof.
  intros Hpost. rewrite invoke_request, request_pipeline.
  unfold pipeline. now rewrite Hpost.
Qed.

(** Claim C2, amended.  Given a response, when its body cannot be
    decoded, or the result object, the projected data, ["requestsLeft"]
    or ["bitsLeft"] cannot be read from it, a public method logs the
    extraction error after the status warning, if any, and nothing
    else: no quota warning and no success record, whatever the
    thresholds.  When all of these can be read, whatever the types of
    the data and of the two counters, [_extract_result] returns them as
    they are with nothing logged, and the call goes on to
    [_is_low_quota] on these counters: it returns the data and logs the
    success if the quota check returns, and raises what the quota check
    raises. *)
Theorem extraction_failure_short_circuits (op : operation) (s : state)
    (r : Response) :
  requests_post (url (self s)) (payload_of (self s) op) = Return r ->
  (extraction_fails (data_retrieve_func_of op) (content r) ->
   records (snd (invoke op s))
   = records s ++ status_records (status_code r) ++ [decode_error_logged])
  /\ (forall data requests_left bits_left,
        well_formed (data_retrieve_func_of op) (content r)
          data requests_left bits_left ->
        (forall method s',
           _extract_result (Some r) (Some (data_retrieve_func_of op)) method s'
           = (Return (Some (data, requests_left, bits_left)), s'))
        /\ invoke op s
           = match _is_low_quota requests_left bits_left
                     (after s (status_records (status_code r))
                        [(url (self s), payload_of (self s) op)]) with
             | (Return _, s') => (Return data, after s' [success_logged] [])
             | (Raise e, s') => (Raise e, s')
             end).
Proof.
  intros Hpost. split.
  - intros Hfail. rewrite invoke_request, request_pipeline.
    now rewrite (pipeline_extraction_fails _ _ _ r Hpost Hfail).
  - intros data q b Hwf. apply well_formed_extraction in Hwf. split.
    + intros method s'. now rewrite extract_result_run, Hwf.
    + rewrite invoke_request, request_pipeline, is_low_quota_run.
      unfold pipeline. rewrite Hpost, Hwf. cbn [self after].
      destruct (quota_records (self s) q b) as [quota | e]; cbn [fst snd].
      * unfold after; simpl. now rewrite !app_nil_r, <- !app_assoc.
      * reflexivity.
Qed.

(** Claim C3, as the code runs it.  When both thresholds are nonzero and
    both counters are strictly below them, [_is_low_quota] logs the
    request warning and returns before the test of the bits: the bit
    warning is not logged. *)
Theorem both_quotas_low_one_warning (requests_left bits_left : Z) (s : state) :
  warn_below_quota_requests (self s) <> 0 ->
  requests_left < warn_below_quota_requests (self s) ->
  warn_below_quota_bits (self s) <> 0 ->
  bits_left < warn_below_quota_bits (self s) ->
  _is_low_quota (VInt requests_left) (VInt bits_left) s
  = (Return true, after s [low_requests_warned] []).
Proof.
  intros Hr Hlow _ _. rewrite is_low_quota_run.
  unfold quota_records, and_then, lt_int.
  apply Z.eqb_neq in Hr. apply Z.ltb_lt in Hlow.
  now rewrite Hr, Hlow.
Qed.

(** Claim C4.  On a 2xx response whose body decodes to an object with a
    ["result"] that holds [random.data] and the two quota counters, each
    of the seven generating methods returns exactly that [data] object. *)
Theorem generation_returns_random_data (op : operation) (s : state)
    (r : Response) (decoded result random data requests_left bits_left : value) :
  (forall id, op <> GetUsage id) ->
  requests_post (url (self s)) (payload_of (self s) op) = Return r ->
  200 <= status_code r <= 299 ->
  json_loads (content r) = Return decoded ->
  getitem decoded "result" = Return result ->
  getitem result "random" = Return random ->
  getitem random "data" = Return data ->
  getitem result "requestsLeft" = Return requests_left ->
  getitem result "bitsLeft" = Return bits_left ->
  is_number requests_left = true ->
  is_number bits_left = true ->
  fst (invoke op s) = Return data.
Proof.
  intros Hop Hpost _ Hdecoded Hresult Hrandom Hdata Hq Hb Nq Nb.
  rewrite invoke_request, request_pipeline. cbn [fst].
  assert (Hwf : well_formed (data_retrieve_func_of op) (content r)
                  data requests_left bits_left).
  { exists decoded, result. repeat split; try assumption.
    assert (Hf : data_retrieve_func_of op = random_data).
    { destruct op; try reflexivity. now contradiction (Hop id). }
    rewrite Hf. unfold random_data, and_then. now rewrite Hrandom. }
  destruct (pipeline_well_formed _ _ _ r _ _ _ Hpost Hwf Nq Nb) as (quota & _ & ->).
  reflexivity.
Qed.

(** Claim C5, as the code runs it.  The request [generate_integer_sequences]
    sends holds under ["params"]["base"] the object [list[int]],
    whatever [base] the caller supplies. *)
Theorem integer_sequences_base_is_a_type
    (num length minimum maximum : value) (replacement base id : option value)
    (s : state) :
  exists payload,
    requests (snd (generate_integer_sequences num length minimum maximum
                     replacement base id s))
    = requests s ++ [(url (self s), payload)]
    /\ and_then (getitem payload "params") (fun params => getitem params "base")
       = Return VListIntAlias.
Proof.
  exists (payload_of (self s)
            (GenerateIntegerSequences num length minimum maximum replacement base id)).
  split; [ | reflexivity].
  change (generate_integer_sequences num length minimum maximum replacement base id s)
    with (invoke (GenerateIntegerSequences num length minimum maximum
                    replacement base id) s).
  now rewrite invoke_request, request_pipeline.
Qed.

(** Claim C6.  On a response whose body decodes to an object with a
    ["result"] that holds ["bitsLeft"], ["requestsLeft"], ["totalBits"]
    and ["totalRequests"], the two counters being numbers, [get_usage]
    returns the mapping of [bits_left], [requests_left], [total_bits]
    and [total_requests] to these four objects, unchanged. *)
Theorem get_usage_renames_keys (id : option value) (s : state) (r : Response)
    (decoded result bits_left requests_left total_bits total_requests : value) :
  requests_post (url (self s)) (payload_of (self s) (GetUsage id)) = Return r ->
  json_loads (content r) = Return decoded ->
  getitem decoded "result" = Return result ->
  getitem result "bitsLeft" = Return bits_left ->
  getitem result "requestsLeft" = Return requests_left ->
  getitem result "totalBits" = Return total_bits ->
  getitem result "totalRequests" = Return total_requests ->
  is_number bits_left = true ->
  is_number requests_left = true ->
  fst (get_usage id s)
  = Return (VDict [("bits_left", bits_left);
                   ("requests_left", requests_left);
                   ("total_bits", total_bits);
                   ("total_requests", total_requests)]).
Proof.
  intros Hpost Hdecoded Hresult Hb Hq Htb Htr Nb Nq.
  change (get_usage id s) with (invoke (GetUsage id) s).
  rewrite invoke_request, request_pipeline. cbn [fst].
  assert (Hwf : well_formed (data_retrieve_func_of (GetUsage id)) (content r)
                  (VDict [("bits_left", bits_left);
                          ("requests_left", requests_left);
                          ("total_bits", total_bits);
                          ("total_requests", total_requests)])
                  requests_left bits_left).
  { exists decoded, result. repeat split; try assumption.
    simpl. unfold usage_mapping, and_then. now rewrite Hb, Hq, Htb, Htr. }
  destruct (pipeline_well_formed _ _ _ r _ _ _ Hpost Hwf Nq Nb) as (quota & _ & ->).
  reflexivity.
Qed.

(** Claim C7.  On a response whose status is outside 200..299 a public
    method logs the status warning first and goes on to the extraction:
    a well-formed body with numeric counters still yields its data, and
    a body on which extraction fails yields the extraction error as the
    next record. *)
Theorem non_2xx_warns_then_extracts (op : operation) (s : state) (r : Response) :
  requests_post (url (self s)) (payload_of (self s) op) = Return r ->
  status_code r < 200 \/ 299 < status_code r ->
  (exists rest, records (snd (invoke op s)) = records s ++ non_2xx_warned :: rest)
  /\ (forall data requests_left bits_left,
        well_formed (data_retrieve_func_of op) (content r)
          data requests_left bits_left ->
        is_number requests_left = true -> is_number bits_left = true ->
        fst (invoke op s) = Return data)
  /\ (extraction_fails (data_retrieve_func_of op) (content r) ->
      records (snd (invoke op s))
      = records s ++ [non_2xx_warned; decode_error_logged]).
Proof.
  intros Hpost Hstatus.
  rewrite invoke_request, request_pipeline. cbn [fst snd after records].
  assert (Hwarned : status_records (status_code r) = [non_2xx_warned]).
  { unfold status_records.
    destruct (is_2xx (status_code r)) eqn:H2xx; [ | reflexivity].
    apply is_2xx_spec in H2xx. lia. }
  split; [ | split].
  - unfold pipeline. rewrite Hpost, Hwarned.
    destruct (extraction _ (content r)) as [[[data q] b] | e]; cbn [snd].
    + destruct (quota_records (self s) q b) as [quota | e]; cbn [snd];
        eexists; reflexivity.
    + eexists; reflexivity.
  - intros data q b Hwf Nq Nb.
    destruct (pipeline_well_formed _ _ _ r _ _ _ Hpost Hwf Nq Nb) as (quota & _ & ->).
    reflexivity.
  - intros Hfail.
    now rewrite (pipeline_extraction_fails _ _ _ r Hpost Hfail), Hwarned.
Qed.

(** Claim C8, amended.  Two clients that differ only in their thresholds,
    given the same transport and the same decoder, return the same
    value whenever both return; and they end in the same outcome, a
    returned value or a raised exception, whenever the counters of a
    well-formed body are numbers. *)
Theorem thresholds_do_not_alter_data (op : operation) (s1 s2 : state) :
  same_but_thresholds (self s1) (self s2) ->
  (forall v1 v2,
     fst (invoke op s1) = Return v1 -> fst (invoke op s2) = Return v2 -> v1 = v2)
  /\ ((forall r data requests_left bits_left,
         requests_post (url (self s1)) (payload_of (self s1) op) = Return r ->
         well_formed (data_retrieve_func_of op) (content r)
           data requests_left bits_left ->
         is_number requests_left = true /\ is_number bits_left = true) ->
      fst (invoke op s1) = fst (invoke op s2)).
Proof.
  intros Hsame.
  rewrite !invoke_request, !request_pipeline. cbn [fst].
  rewrite <- (payload_of_same _ _ op Hsame).
  destruct Hsame as (Hurl & _ & _).
  unfold pipeline. rewrite <- Hurl.
  destruct (requests_post (url (self s1)) (payload_of (self s1) op)) as [r | e].
  - destruct (extraction _ (content r)) as [[[data q] b] | e] eqn:Hext.
    + split.
      * intros v1 v2.
        destruct (quota_records (self s1) q b), (quota_records (self s2) q b);
          cbn [fst]; congruence.
      * intros Hnum. apply well_formed_extraction in Hext.
        destruct (Hnum r data q b eq_refl Hext) as [Nq Nb].
        destruct (quota_records_numbers (self s1) q b Nq Nb) as [q1 ->].
        destruct (quota_records_numbers (self s2) q b Nq Nb) as [q2 ->].
        reflexivity.
    + split; [cbn [fst]; congruence | reflexivity].
  - destruct (is_ConnectionError e); split; cbn [fst]; congruence.
Qed.

(** Claim C9.  A public method leaves every attribute of the client as
    it found it, on every input and every outcome of the transport; so
    does any sequence of calls on the same client. *)
Theorem configuration_unchanged (op : operation) (ops : list operation)
    (s : state) :
  self (snd (invoke op s)) = self s /\ self (session ops s) = self s.
Proof.
  assert (Hone : forall o t, self (snd (invoke o t)) = self t).
  { intros o t. rewrite invoke_request, request_pipeline. reflexivity. }
  split; [apply Hone | ].
  revert s. induction ops as [ | o rest IH]; intros s; simpl.
  - reflexivity.
  - rewrite IH. apply Hone.
Qed.

(** Claim C10.  Whatever public method runs, each record it logs is a
    quota warning or one of the four records that carry a method name,
    and a record that carries a method name carries [generate_integers];
    the [method] argument a public method hands to [_request] has no
    effect on the run. *)
Theorem diagnostics_name_generate_integers (op : operation) (s : state) :
  exists new,
    records (snd (invoke op s)) = records s ++ new
    /\ Forall (fun r => In r [connection_error_record "generate_integers";
                              non_2xx_record "generate_integers";
                              decode_error_record "generate_integers";
                              low_requests_warned;
                              low_bits_warned;
                              success_record "generate_integers"]) new
    /\ (forall r method,
          In r new ->
          In r [connection_error_record method; non_2xx_record method;
                decode_error_record method; success_record method] ->
          method = "generate_integers")
    /\ (forall method,
          invoke op s
          = _request method (payload_of (self s) op)
              (Some (data_retrieve_func_of op)) s).
Proof.
  pose proof (pipeline_records (self s) (payload_of (self s) op)
                (data_retrieve_func_of op)) as Hsix.
  exists (snd (pipeline (self s) (payload_of (self s) op) (data_retrieve_func_of op))).
  split; [ | split; [ | split]].
  - now rewrite invoke_request, request_pipeline.
  - exact Hsix.
  - intros r method Hr Htagged.
    rewrite Forall_forall in Hsix.
    exact (tagged_record_method r _ method (Hsix r Hr) Htagged).
  - intros method. now rewrite invoke_request.
Qed.

(** ** Further properties of the methods *)

Lemma invoke_run (op : operation) (s : state) :
  invoke op s
  = (fst (pipeline (self s) (payload_of (self s) op) (data_retrieve_func_of op)),
     after s
       (snd (pipeline (self s) (payload_of (self s) op) (data_retrieve_func_of op)))
       [(url (self s), payload_of (self s) op)]).
Proof.
  now rewrite invoke_request, request_pipeline.
Qed.

Lemma invoke_self (op : operation) (s : state) : self (snd (invoke op s)) = self s.
Proof.
  now rewrite invoke_run.
Qed.

Lemma session_self (ops : list operation) (s : state) :
  self (session ops s) = self s.
Proof.
  revert s. induction ops as [ | op rest IH]; intros s; simpl; [reflexivity | ].
  now rewrite IH, invoke_self.
Qed.

Lemma success_not_in_status (code : Z) : ~ In success_logged (status_records code).
Proof.
  unfold status_records. destruct (is_2xx code); simpl; [tauto | ].
  intros [H | []]. discriminate H.
Qed.

(** X1.  A call sends exactly one request, whatever its outcome, to the
    URL of the client; the payload holds the client's version string
    under ["jsonrpc"], its API key under ["params"]["apiKey"], and under
    ["id"] the caller's [id], or 1 when the caller gives none. *)
Theorem request_envelope (op : operation) (s : state) :
  exists payload,
    requests (snd (invoke op s)) = requests s ++ [(url (self s), payload)]
    /\ getitem payload "jsonrpc" = Return (version_str (self s))
    /\ and_then (getitem payload "params") (fun params => getitem params "apiKey")
       = Return (api_key (self s))
    /\ getitem payload "id" = Return (default (VInt 1) (id_of op)).
Proof.
  exists (payload_of (self s) op). split.
  - now rewrite invoke_run.
  - destruct op; repeat split.
Qed.

(** X2.  Calls made one after the other on one client send their
    requests in the order of the calls, one each, all to the same URL
    and each with the payload the call would send on its own, whether
    or not earlier calls raised. *)
Theorem session_requests (ops : list operation) (s : state) :
  requests (session ops s)
  = requests s ++ map (fun op => (url (self s), payload_of (self s) op)) ops.
Proof.
  revert s. induction ops as [ | op rest IH]; intros s; simpl.
  - now rewrite app_nil_r.
  - rewrite IH, invoke_self. rewrite invoke_run. cbn [snd after requests].
    now rewrite <- app_assoc.
Qed.

(** X3.  The outcome of a call and the records it logs do not depend
    on the calls made before it on the same client. *)
Theorem outcome_independent_of_history (op : operation) (ops : list operation)
    (s : state) :
  fst (invoke op (session ops s)) = fst (invoke op s)
  /\ exists new,
       records (snd (invoke op s)) = records s ++ new
       /\ records (snd (invoke op (session ops s)))
          = records (session ops s) ++ new.
Proof.
  rewrite !invoke_run, session_self. split; [reflexivity | ].
  eexists; split; reflexivity.
Qed.

(** X4.  [generate_integers] makes no use of its argument
    [pregenerateRandomiztion]: two calls that differ only in it run
    alike, down to the request sent. *)
Theorem pregenerate_randomization_ignored
    (num minimum maximum : value) (replacement base id pre pre' : option value)
    (s : state) :
  generate_integers num minimum maximum replacement base pre id s
  = generate_integers num minimum maximum replacement base pre' id s.
Proof.
  change (invoke (GenerateIntegers num minimum maximum replacement base pre id) s
          = invoke (GenerateIntegers num minimum maximum replacement base pre' id) s).
  rewrite !invoke_run. reflexivity.
Qed.

(** X5.  With both thresholds at zero, as by default, the counters are
    never compared: whenever the result object, the data and the two
    counters can be read from the body, the data is returned and the
    success is logged, whatever the types of the counters. *)
Theorem zero_thresholds_return_data (op : operation) (s : state) (r : Response)
    (data requests_left bits_left : value) :
  warn_below_quota_requests (self s) = 0 ->
  warn_below_quota_bits (self s) = 0 ->
  requests_post (url (self s)) (payload_of (self s) op) = Return r ->
  well_formed (data_retrieve_func_of op) (content r) data requests_left bits_left ->
  invoke op s
  = (Return data,
     after s (status_records (status_code r) ++ [success_logged])
       [(url (self s), payload_of (self s) op)]).
Proof.
  intros Hq Hb Hpost Hwf. rewrite invoke_run. unfold pipeline.
  apply well_formed_extraction in Hwf. rewrite Hpost, Hwf.
  unfold quota_records, and_then. now rewrite Hq, Hb.
Qed.

(** X6.  [_is_low_quota] either raises [TypeError] with nothing logged,
    or returns a flag after logging at most one record, a quota warning;
    the flag is [True] exactly when a warning was logged. *)
Theorem is_low_quota_flag (requests_left bits_left : value) (s : state) :
  _is_low_quota requests_left bits_left s = (Raise TypeError, s)
  \/ exists flag new,
       _is_low_quota requests_left bits_left s = (Return flag, after s new [])
       /\ (new = [] \/ new = [low_requests_warned] \/ new = [low_bits_warned])
       /\ (flag = true <-> new <> []).
Proof.
  rewrite is_low_quota_run.
  destruct (quota_records (self s) requests_left bits_left) as [quota | e] eqn:Hquota.
  - right. exists (negb (Nat.eqb (List.length quota) 0)), quota.
    split; [reflexivity | ].
    apply quota_records_warnings in Hquota.
    split; [exact Hquota | ].
    destruct Hquota as [-> | [-> | ->]]; simpl; split; congruence.
  - left. f_equal.
    unfold quota_records, and_then in Hquota.
    assert (Hlt : forall v t b, lt_int v t = Raise b -> b = TypeError).
    { intros v t b. destruct v; simpl; congruence. }
    destruct (warn_below_quota_requests (self s) =? 0).
    + destruct (warn_below_quota_bits (self s) =? 0); [discriminate | ].
      destruct (lt_int bits_left _) as [[ | ] | e'] eqn:E; try discriminate.
      injection Hquota as <-. f_equal. now apply Hlt in E.
    + destruct (lt_int requests_left _) as [[ | ] | e'] eqn:E; try discriminate.
      * destruct (warn_below_quota_bits (self s) =? 0); [discriminate | ].
        destruct (lt_int bits_left _) as [[ | ] | e''] eqn:E'; try discriminate.
        injection Hquota as <-. f_equal. now apply Hlt in E'.
      * injection Hquota as <-. f_equal. now apply Hlt in E.
Qed.

(** X7.  When the request threshold is nonzero and the request counter
    is below it, the bit counter is not looked at: the request warning
    is logged and [True] returned whatever [bits_left] is, a number or
    not. *)
Theorem low_requests_hides_bits (requests_left bits_left : value) (s : state) :
  warn_below_quota_requests (self s) <> 0 ->
  lt_int requests_left (warn_below_quota_requests (self s)) = Return true ->
  _is_low_quota requests_left bits_left s
  = (Return true, after s [low_requests_warned] []).
Proof.
  intros Hq Hlow. rewrite is_low_quota_run.
  unfold quota_records, and_then.
  apply Z.eqb_neq in Hq. now rewrite Hq, Hlow.
Qed.

(** X8.  A request counter that is not a number, under a nonzero
    request threshold, makes a call raise [TypeError] after a successful
    extraction, with no error record, no quota warning and no success
    record logged. *)
Theorem non_numeric_counter_raises_unlogged (op : operation) (s : state)
    (r : Response) (data requests_left bits_left : value) :
  requests_post (url (self s)) (payload_of (self s) op) = Return r ->
  well_formed (data_retrieve_func_of op) (content r) data requests_left bits_left ->
  warn_below_quota_requests (self s) <> 0 ->
  is_number requests_left = false ->
  invoke op s
  = (Raise TypeError,
     after s (status_records (status_code r))
       [(url (self s), payload_of (self s) op)]).
Proof.
  intros Hpost Hwf Hq Hnum. rewrite invoke_run. unfold pipeline.
  apply well_formed_extraction in Hwf. rewrite Hpost, Hwf.
  unfold quota_records, and_then. apply Z.eqb_neq in Hq. rewrite Hq.
  destruct requests_left; try discriminate Hnum; reflexivity.
Qed.

(** X9.  [_extract_result] lets no exception of class [Exception]
    through: for any response, and any projection and decoder that
    raise only classes of [exn], which are all subclasses of
    [Exception], it returns [None] after logging the extraction error,
    or a triple with nothing logged.  (A [SystemExit] or the like, which
    [except Exception] does not catch, is outside [exn].) *)
Theorem extract_result_never_raises (response : option Response)
    (f : option (value -> outcome value)) (method : string) (s : state) :
  _extract_result response f method s
  = (Return None, after s [decode_error_record method] [])
  \/ exists triple, _extract_result response f method s = (Return (Some triple), s).
Proof.
  destruct response as [r | ]; [ | left; apply extract_result_none].
  assert (H : forall g, _extract_result (Some r) (Some g) method s
                        = (Return None, after s [decode_error_record method] [])
                        \/ exists triple,
                             _extract_result (Some r) (Some g) method s
                             = (Return (Some triple), s)).
  { intros g. rewrite extract_result_run.
    destruct (extraction g (content r)) as [triple | e]; eauto. }
  destruct f as [g | ]; [apply H | ].
  exact (H (fun x => Return x)).
Qed.

(** X10.  Without a [data_retrieve_func], the data [_extract_result]
    returns is the result object itself. *)
Theorem extract_result_default_func (r : Response) (method : string) (s : state)
    (decoded result requests_left bits_left : value) :
  json_loads (content r) = Return decoded ->
  getitem decoded "result" = Return result ->
  getitem result "requestsLeft" = Return requests_left ->
  getitem result "bitsLeft" = Return bits_left ->
  _extract_result (Some r) None method s
  = (Return (Some (result, requests_left, bits_left)), s).
Proof.
  intros Hd Hr Hq Hb.
  change (_extract_result (Some r) None method s)
    with (_extract_result (Some r) (Some (fun x => Return x)) method s).
  rewrite extract_result_run. unfold extraction, and_then.
  now rewrite Hd, Hr, Hq, Hb.
Qed.

(** X11.  The only exceptions a public method raises are [TypeError]
    and an exception of the transport that is no [ConnectionError]; a
    [ConnectionError] never reaches the caller. *)
Theorem raised_exceptions (op : operation) (s : state) (e : exn) :
  fst (invoke op s) = Raise e ->
  e <> ConnectionError
  /\ (e = TypeError
      \/ requests_post (url (self s)) (payload_of (self s) op) = Raise e).
Proof.
  rewrite invoke_run. cbn [fst]. unfold pipeline.
  destruct (requests_post (url (self s)) (payload_of (self s) op)) as [r | e'].
  - assert (Hquota : forall q b e0,
              quota_records (self s) q b = Raise e0 -> e0 = TypeError).
    { intros q b e0. unfold quota_records, and_then.
      assert (Hlt : forall v t x, lt_int v t = Raise x -> x = TypeError)
        by (intros v t x; destruct v; simpl; congruence).
      destruct (warn_below_quota_requests (self s) =? 0).
      - destruct (warn_below_quota_bits (self s) =? 0); [discriminate | ].
        destruct (lt_int b _) as [[ | ] | x] eqn:E; try discriminate.
        intros [= <-]. now apply Hlt in E.
      - destruct (lt_int q _) as [[ | ] | x] eqn:E; try discriminate.
        + destruct (warn_below_quota_bits (self s) =? 0); [discriminate | ].
          destruct (lt_int b _) as [[ | ] | y] eqn:E'; try discriminate.
          intros [= <-]. now apply Hlt in E'.
        + intros [= <-]. now apply Hlt in E. }
    destruct (extraction _ (content r)) as [[[data q] b] | e0]; cbn [fst].
    + destruct (quota_records (self s) q b) as [quota | e0] eqn:E; cbn [fst];
        [discriminate | ].
      intros [= <-]. apply Hquota in E. subst e0. split; [discriminate | now left].
    + intros [= <-]. split; [discriminate | now left].
  - destruct (is_ConnectionError e') eqn:He; cbn [fst]; intros [= <-].
    + split; [discriminate | now left].
    + split; [ | now right]. intros ->. discriminate He.
Qed.

(** X12.  A value a public method returns is the data projected from
    the body of a response the transport returned: nothing is returned
    after a transport failure or an extraction failure. *)
Theorem returned_value_is_projected_data (op : operation) (s : state) (v : value) :
  fst (invoke op s) = Return v ->
  exists r requests_left bits_left,
    requests_post (url (self s)) (payload_of (self s) op) = Return r
    /\ well_formed (data_retrieve_func_of op) (content r) v requests_left bits_left.
Proof.
  rewrite invoke_run. cbn [fst]. unfold pipeline.
  destruct (requests_post (url (self s)) (payload_of (self s) op)) as [r | e].
  - destruct (extraction _ (content r)) as [[[data q] b] | e] eqn:Hext;
      cbn [fst]; [ | discriminate].
    destruct (quota_records (self s) q b) as [quota | e]; cbn [fst];
      [ | discriminate].
    intros [= <-]. exists r, q, b. split; [reflexivity | ].
    now apply well_formed_extraction.
  - destruct (is_ConnectionError e); cbn [fst]; discriminate.
Qed.

(** X13.  The success record is logged exactly by the calls that return,
    and then it is the last record of the call. *)
Theorem success_logged_iff_returned (op : operation) (s : state) :
  exists new,
    records (snd (invoke op s)) = records s ++ new
    /\ ((exists v, fst (invoke op s) = Return v) <-> In success_logged new)
    /\ (In success_logged new -> exists before, new = before ++ [success_logged]).
Proof.
  rewrite invoke_run. cbn [fst snd after records].
  eexists; split; [reflexivity | ].
  unfold pipeline.
  destruct (requests_post (url (self s)) (payload_of (self s) op)) as [r | e].
  - destruct (extraction _ (content r)) as [[[data q] b] | e]; cbn [fst snd].
    + destruct (quota_records (self s) q b) as [quota | e]; cbn [fst snd].
      * split; [split | ].
        -- intros _. rewrite app_assoc. apply in_or_app. right. now left.
        -- eauto.
        -- intros _. exists (status_records (status_code r) ++ quota).
           now rewrite app_assoc.
      * split; [split | ].
        -- intros [v Hv]. discriminate Hv.
        -- intros H. now apply success_not_in_status in H.
        -- intros H. now apply success_not_in_status in H.
    + assert (Hno : ~ In success_logged
                      (status_records (status_code r) ++ [decode_error_logged])).
      { intros H. apply in_app_or in H as [H | [H | []]].
        - now apply success_not_in_status in H.
        - discriminate H. }
      split; [split | ]; [intros [v Hv]; discriminate Hv | tauto | tauto].
  - destruct (is_ConnectionError e); cbn [fst snd].
    + split; [split | ].
      * intros [v Hv]. discriminate Hv.
      * intros [H | [H | []]]; discriminate H.
      * intros [H | [H | []]]; discriminate H.
    + split; [split | ]; [intros [v Hv]; discriminate Hv | intros [] | intros []].
Qed.

(** X14.  [_is_response_successful] returns [False] without logging on a
    status from 200 to 299, both included, and [True] after logging the
    status warning on any other status. *)
Theorem is_response_successful_bounds (code : Z) (method : string) (s : state) :
  (200 <= code <= 299
   /\ _is_response_successful code method s = (Return false, s))
  \/ ((code < 200 \/ 299 < code)
      /\ _is_response_successful code method s
         = (Return true, after s [non_2xx_record method] [])).
Proof.
  unfold _is_response_successful.
  destruct ((200 <=? code) && (code <=? 299)) eqn:Hin; simpl.
  - left. apply andb_true_iff in Hin as [H1 H2].
    apply Z.leb_le in H1. apply Z.leb_le in H2. split; [lia | reflexivity].
  - right. apply andb_false_iff in Hin as [H | H]; apply Z.leb_gt in H;
      (split; [lia | ]);
      unfold bind, logger_warning, emit, ret, after; simpl;
      now rewrite app_nil_r.
Qed.

(** X15.  [_robust_http_request] records the one request it makes, never
    raises [ConnectionError], and returns [None] exactly when the
    transport raised it. *)
Theorem robust_http_request_outcomes (payload : value) (method : string)
    (s : state) :
  requests (snd (_robust_http_request payload method s))
  = requests s ++ [(url (self s), payload)]
  /\ fst (_robust_http_request payload method s) <> Raise ConnectionError
  /\ (fst (_robust_http_request payload method s) = Return None
      <-> requests_post (url (self s)) payload = Raise ConnectionError).
Proof.
  rewrite robust_http_request_run.
  destruct (requests_post (url (self s)) payload) as [r | e].
  - cbn [fst snd after requests]. repeat split; try discriminate.
  - destruct e; cbn [is_ConnectionError fst snd after requests];
      repeat split; try discriminate; try reflexivity.
Qed.

(** X16.  When ["totalBits"] or ["totalRequests"] cannot be read from
    the result object, [get_usage] fails like any extraction failure,
    also when both quota counters are there: it logs the extraction
    error and raises [TypeError]. *)
Theorem get_usage_needs_totals (id : option value) (s : state) (r : Response)
    (decoded result : value) (e : exn) :
  requests_post (url (self s)) (payload_of (self s) (GetUsage id)) = Return r ->
  json_loads (content r) = Return decoded ->
  getitem decoded "result" = Return result ->
  getitem result "totalBits" = Raise e \/ getitem result "totalRequests" = Raise e ->
  get_usage id s
  = (Raise TypeError,
     after s (status_records (status_code r) ++ [decode_error_logged])
       [(url (self s), payload_of (self s) (GetUsage id))]).
Proof.
  intros Hpost Hd Hr Hmissing.
  change (get_usage id s) with (invoke (GetUsage id) s).
  rewrite invoke_run.
  assert (Hfail : exists e', usage_mapping result = Raise e').
  { unfold usage_mapping, and_then.
    destruct (getitem result "bitsLeft"); eauto.
    destruct (getitem result "requestsLeft"); eauto.
    destruct Hmissing as [H | H]; rewrite H; eauto.
    destruct (getitem result "totalBits"); eauto. }
  destruct Hfail as [e' He'].
  rewrite (pipeline_extraction_fails _ _ (data_retrieve_func_of (GetUsage id))
             r Hpost (no_data _ _ decoded result e' Hd Hr He')).
  reflexivity.
Qed.


Lemma usage_mapping_shape (result v : value) :
  usage_mapping result = Return v ->
  exists bits_left requests_left total_bits total_requests,
    getitem result "bitsLeft" = Return bits_left
    /\ getitem result "requestsLeft" = Return requests_left
    /\ getitem result "totalBits" = Return total_bits
    /\ getitem result "totalRequests" = Return total_requests
    /\ v = VDict [("bits_left", bits_left);
                  ("requests_left", requests_left);
                  ("total_bits", total_bits);
                  ("total_requests", total_requests)].
Proof.
  unfold usage_mapping, and_then.
  destruct (getitem result "bitsLeft") as [b | ]; [ | discriminate].
  destruct (getitem result "requestsLeft") as [q | ]; [ | discriminate].
  destruct (getitem result "totalBits") as [tb | ]; [ | discriminate].
  destruct (getitem result "totalRequests") as [tr | ]; [ | discriminate].
  intros [= <-]. now exists b, q, tb, tr.
Qed.

(** X20.  Whatever [get_usage] returns is a mapping with exactly the
    four keys [bits_left], [requests_left], [total_bits] and
    [total_requests], in this order, holding the four fields read from
    the result object of the response; no other field of the response
    is passed on. *)
Theorem get_usage_returns_four_keys (id : option value) (s : state) (v : value) :
  fst (get_usage id s) = Return v ->
  exists r decoded result bits_left requests_left total_bits total_requests,
    requests_post (url (self s)) (payload_of (self s) (GetUsage id)) = Return r
    /\ json_loads (content r) = Return decoded
    /\ getitem decoded "result" = Return result
    /\ getitem result "bitsLeft" = Return bits_left
    /\ getitem result "requestsLeft" = Return requests_left
    /\ getitem result "totalBits" = Return total_bits
    /\ getitem result "totalRequests" = Return total_requests
    /\ v = VDict [("bits_left", bits_left);
                  ("requests_left", requests_left);
                  ("total_bits", total_bits);
                  ("total_requests", total_requests)].
Proof.
  change (get_usage id s) with (invoke (GetUsage id) s).
  rewrite invoke_run. cbn [fst]. unfold pipeline.
  destruct (requests_post (url (self s)) (payload_of (self s) (GetUsage id)))
    as [r | e].
  - destruct (extraction _ (content r)) as [[[data q] b] | e] eqn:Hext;
      cbn [fst]; [ | discriminate].
    destruct (quota_records (self s) q b) as [quota | e]; cbn [fst];
      [ | discriminate].
    intros [= <-].
    apply well_formed_extraction in Hext
      as (decoded & result & Hd & Hr & Hf & _ & _).
    apply usage_mapping_shape in Hf
      as (bl & rl & tb & tr & Hb & Hq & Htb & Htr & ->).
    now exists r, decoded, result, bl, rl, tb, tr.
  - destruct (is_ConnectionError e); cbn [fst]; discriminate.
Qed.

End Client.

(** ** Two transports, and the constructor *)

(** X18.  The status of a response has no part in the outcome of a
    call: two transports whose responses carry the same body end the
    call alike, whatever the two status codes. *)
Theorem status_code_does_not_alter_outcome
    (post1 post2 : string -> value -> outcome Response)
    (json_loads : string -> outcome value) (op : operation) (s : state)
    (r1 r2 : Response) :
  post1 (url (self s)) (payload_of (self s) op) = Return r1 ->
  post2 (url (self s)) (payload_of (self s) op) = Return r2 ->
  content r1 = content r2 ->
  fst (invoke post1 json_loads op s) = fst (invoke post2 json_loads op s).
Proof.
  intros H1 H2 Hbody. rewrite !invoke_run. cbn [fst].
  unfold pipeline. rewrite H1, H2, Hbody.
  destruct (extraction json_loads _ (content r2)) as [[[data q] b] | e];
    [ | reflexivity].
  now destruct (quota_records (self s) q b).
Qed.

(** [str] of an [int] reads back as that [int]. *)
Lemma str_int_round_trip (n : Z) :
  option_map Z.of_int (NilZero.int_of_string (str_int n)) = Some n.
Proof.
  unfold str_int. rewrite NilZero.isi.
  - simpl. now rewrite DecimalZ.of_to.
  - destruct n; simpl; try discriminate.
    intros [= H]. now apply DecimalPos.Unsigned.to_uint_nonnil in H.
  - destruct n; simpl; try discriminate.
    intros [= H]. now apply DecimalPos.Unsigned.to_uint_nonnil in H.
Qed.

(** X19.  The URL of a client tells its version: clients built for
    different versions post to different URLs, whatever their other
    arguments. *)
Theorem url_determines_version (key1 key2 : value) (version1 version2 : Z)
    (version_str1 version_str2 : option value)
    (requests1 requests2 bits1 bits2 : option Z) :
  version1 <> version2 ->
  url (__init__ key1 (Some version1) version_str1 requests1 bits1)
  <> url (__init__ key2 (Some version2) version_str2 requests2 bits2).
Proof.
  unfold __init__. cbn [url]. intros Hne H. apply Hne.
  apply append_inv_head, append_inv_tail in H.
  pose proof (str_int_round_trip version1) as R1.
  pose proof (str_int_round_trip version2) as R2.
  rewrite H in R1. congruence.
Qed.

(** ** The test suite, replayed *)

(** The tests patch [requests.post] with a response of status 200 and
    call a method on a client with the default thresholds. *)
Example test_generate_integers :
  generate_integers (answering ok_response)
    (loads (result_object (VList [VInt 1; VInt 2]) (VInt 1000) (VInt 1000)))
    (VInt 5) (VInt 1) (VInt 10) None None None None (fresh test_api)
  = (Return (VList [VInt 1; VInt 2]),
     {| self := test_api;
        records := [success_logged];
        requests :=
          [("https://api.random.org/json-rpc/4/invoke",
            VDict [("jsonrpc", VStr "4.0");
                   ("method", VStr "generateIntegers");
                   ("params", VDict [("apiKey", VStr "test_api_key");
                                     ("n", VInt 5);
                                     ("min", VInt 1);
                                     ("max", VInt 10);
                                     ("replacement", VBool true);
                                     ("base", VInt 10)]);
                   ("id", VInt 1)])] |}).
Proof. reflexivity. Qed.

Example test_generate_integer_sequences :
  fst (generate_integer_sequences (answering ok_response)
         (loads (result_object
                   (VList [VList [VInt 1; VInt 2]; VList [VInt 3; VInt 4]])
                   (VInt 1000) (VInt 1000)))
         (VInt 5) (VList [VInt 5; VInt 5]) (VList [VInt 1; VInt 1])
         (VList [VInt 10; VInt 10]) None None None (fresh test_api))
  = Return (VList [VList [VInt 1; VInt 2]; VList [VInt 3; VInt 4]]).
Proof. reflexivity. Qed.

(** The floats 0.123 and -0.456 of the test, as the doubles they are. *)
Example test_generate_gaussians :
  fst (generate_gaussians (answering ok_response)
         (loads (result_object
                   (VList [VFloat (S754_finite false 553942754166571 (-52));
                           VFloat (S754_finite true 8214565720323785 (-54))])
                   (VInt 1000) (VInt 1000)))
         (VInt 5) (VInt 0) (VInt 1) (VInt 5) None (fresh test_api))
  = Return (VList [VFloat (S754_finite false 553942754166571 (-52));
                   VFloat (S754_finite true 8214565720323785 (-54))]).
Proof. reflexivity. Qed.

Example test_generate_strings :
  fst (generate_strings (answering ok_response)
         (loads (result_object (VList [VStr "abcde"; VStr "fghij"])
                   (VInt 1000) (VInt 1000)))
         (VInt 5) (VInt 5) (VStr "abcdefghijklmnopqrstuvwxyz") None None
         (fresh test_api))
  = Return (VList [VStr "abcde"; VStr "fghij"]).
Proof. reflexivity. Qed.

Example test_get_usage :
  fst (get_usage (answering ok_response)
         (loads (VDict [("result",
                         VDict [("bitsLeft", VInt 1000);
                                ("requestsLeft", VInt 100);
                                ("totalBits", VInt 2000);
                                ("totalRequests", VInt 200)])]))
         None (fresh test_api))
  = Return (VDict [("bits_left", VInt 1000);
                   ("requests_left", VInt 100);
                   ("total_bits", VInt 2000);
                   ("total_requests", VInt 200)]).
Proof. reflexivity. Qed.

(** Comparisons of a counter with a threshold of 10. *)
Example lt_int_samples :
  lt_int (VInt 9) 10 = Return true /\
  lt_int (VInt 10) 10 = Return false /\
  lt_int (VBool true) 10 = Return true /\
  lt_int (VFloat (S754_finite false 19 (-1))) 10 = Return true /\
  lt_int (VFloat (S754_finite false 21 (-1))) 10 = Return false /\
  lt_int (VFloat S754_nan) 10 = Return false /\
  lt_int VNone 10 = Raise TypeError /\
  lt_int (VStr "many") 10 = Raise TypeError.
Proof. repeat split. Qed.

(** ** The statements at concrete inputs *)

Lemma connection_error_raises_TypeError_witness :
  invoke (failing ConnectionError) (loads VNone) (GenerateUuids (VInt 2) None)
    (fresh test_api)
  = (Raise TypeError,
     after (fresh test_api) [connection_error_logged; decode_error_logged]
       [(url test_api, payload_of test_api (GenerateUuids (VInt 2) None))]).
Proof.
  apply (connection_error_raises_TypeError (failing ConnectionError) (loads VNone)).
  reflexivity.
Defined.

(** A body that is not JSON: the only record is the extraction error.
    A body whose ["bitsLeft"] is a string, on the client with thresholds
    of 10: the quota check runs on the request counter, warns, and the
    data is returned. *)
Lemma extraction_failure_short_circuits_witness :
  records (snd (invoke (answering (mkResponse 200 "not json")) (loads VNone)
                  (GenerateStrings (VInt 2) (VInt 5) (VStr "abcde") None None)
                  (fresh test_api)))
  = [decode_error_logged]
  /\ invoke (answering ok_response)
       (loads (result_object (VList [VStr "abcde"]) (VInt 5) (VStr "many")))
       (GenerateStrings (VInt 1) (VInt 5) (VStr "abcde") None None)
       (fresh watchful_api)
     = (Return (VList [VStr "abcde"]),
        after (fresh watchful_api) [low_requests_warned; success_logged]
          [(url watchful_api,
            payload_of watchful_api
              (GenerateStrings (VInt 1) (VInt 5) (VStr "abcde") None None))]).
Proof.
  split.
  - apply (extraction_failure_short_circuits
             (answering (mkResponse 200 "not json")) (loads VNone)
             (GenerateStrings (VInt 2) (VInt 5) (VStr "abcde") None None)
             (fresh test_api) (mkResponse 200 "not json")).
    + reflexivity.
    + apply undecodable_body with JSONDecodeError. reflexivity.
  - refine (proj2 (proj2 (extraction_failure_short_circuits
                           (answering ok_response)
                           (loads (result_object (VList [VStr "abcde"])
                                     (VInt 5) (VStr "many")))
                           (GenerateStrings (VInt 1) (VInt 5) (VStr "abcde")
                              None None)
                           (fresh watchful_api) ok_response eq_refl)
                     (VList [VStr "abcde"]) (VInt 5) (VStr "many") _)).
    apply well_formed_extraction. reflexivity.
Defined.

(** Against claim C2 as stated: a body whose ["requestsLeft"] is a
    string is not treated as an extraction failure.  With the default
    thresholds [generate_integers] returns the data and logs success. *)
Lemma mistyped_counter_still_returns_data :
  is_number (VStr "many") = false /\
  invoke (answering ok_response)
    (loads (result_object (VList [VInt 1; VInt 2]) (VStr "many") (VInt 1000)))
    (GenerateIntegers (VInt 5) (VInt 1) (VInt 10) None None None None)
    (fresh test_api)
  = (Return (VList [VInt 1; VInt 2]),
     after (fresh test_api) [success_logged]
       [(url test_api,
         payload_of test_api
           (GenerateIntegers (VInt 5) (VInt 1) (VInt 10) None None None None))]).
Proof.
  split; reflexivity.
Qed.

Lemma both_quotas_low_one_warning_witness :
  _is_low_quota (VInt 5) (VInt 5) (fresh watchful_api)
  = (Return true, after (fresh watchful_api) [low_requests_warned] []).
Proof.
  apply (both_quotas_low_one_warning 5 5 (fresh watchful_api)); simpl; lia.
Defined.

(** The scenario of the specification: [generate_integers(num=5,
    minimum=1, maximum=10)] against a result with data [[1,2,3,4,5]] and
    both counters at 1000. *)
Lemma generation_returns_random_data_witness :
  fst (invoke (answering ok_response)
         (loads (result_object (VList [VInt 1; VInt 2; VInt 3; VInt 4; VInt 5])
                   (VInt 1000) (VInt 1000)))
         (GenerateIntegers (VInt 5) (VInt 1) (VInt 10) None None None None)
         (fresh test_api))
  = Return (VList [VInt 1; VInt 2; VInt 3; VInt 4; VInt 5]).
Proof.
  eapply (generation_returns_random_data (answering ok_response) _ _ _ ok_response);
    [ intros id; discriminate | reflexivity | simpl; lia | reflexivity .. ].
Defined.

(** The scenario of the specification for [get_usage]. *)
Lemma get_usage_renames_keys_witness :
  fst (get_usage (answering ok_response)
         (loads (VDict [("result",
                         VDict [("bitsLeft", VInt 1000);
                                ("requestsLeft", VInt 100);
                                ("totalBits", VInt 2000);
                                ("totalRequests", VInt 200)])]))
         None (fresh test_api))
  = Return (VDict [("bits_left", VInt 1000);
                   ("requests_left", VInt 100);
                   ("total_bits", VInt 2000);
                   ("total_requests", VInt 200)]).
Proof.
  eapply (get_usage_renames_keys (answering ok_response) _ _ _ ok_response);
    reflexivity.
Defined.

(** Status 404 with a well-formed body: the warning, then the data. *)
Lemma non_2xx_warns_then_extracts_witness :
  invoke (answering not_found_response)
    (loads (result_object (VList [VStr "abcde"; VStr "edcba"])
              (VInt 1000) (VInt 1000)))
    (GenerateStrings (VInt 2) (VInt 5) (VStr "abcde") None None)
    (fresh test_api)
  = (Return (VList [VStr "abcde"; VStr "edcba"]),
     after (fresh test_api) [non_2xx_warned; success_logged]
       [(url test_api,
         payload_of test_api
           (GenerateStrings (VInt 2) (VInt 5) (VStr "abcde") None None))])
  /\ exists rest,
       records (snd (invoke (answering not_found_response)
                       (loads (result_object (VList [VStr "abcde"; VStr "edcba"])
                                 (VInt 1000) (VInt 1000)))
                       (GenerateStrings (VInt 2) (VInt 5) (VStr "abcde") None None)
                       (fresh test_api)))
       = records (fresh test_api) ++ non_2xx_warned :: rest.
Proof.
  split; [reflexivity | ].
  apply (non_2xx_warns_then_extracts (answering not_found_response) _
           (GenerateStrings (VInt 2) (VInt 5) (VStr "abcde") None None)
           (fresh test_api) not_found_response); [reflexivity | simpl; lia].
Defined.

(** Against claim C8 as stated: on a body whose ["requestsLeft"] is
    [null], the client with zero thresholds returns the data and the
    client with thresholds of 10 raises [TypeError] from the comparison. *)
Lemma null_counter_splits_the_outcomes :
  same_but_thresholds test_api watchful_api /\
  fst (invoke (answering ok_response)
         (loads (result_object (VList [VStr "uuid"]) VNone (VInt 1000)))
         (GenerateUuids (VInt 1) None) (fresh test_api))
  = Return (VList [VStr "uuid"]) /\
  fst (invoke (answering ok_response)
         (loads (result_object (VList [VStr "uuid"]) VNone (VInt 1000)))
         (GenerateUuids (VInt 1) None) (fresh watchful_api))
  = Raise TypeError.
Proof.
  repeat split.
Qed.

(** Counters of 5 against thresholds of 0 and of 10: the same data. *)
Lemma thresholds_do_not_alter_data_witness :
  fst (invoke (answering ok_response)
         (loads (result_object (VList [VStr "uuid"]) (VInt 5) (VInt 5)))
         (GenerateUuids (VInt 1) None) (fresh test_api))
  = fst (invoke (answering ok_response)
           (loads (result_object (VList [VStr "uuid"]) (VInt 5) (VInt 5)))
           (GenerateUuids (VInt 1) None) (fresh watchful_api)).
Proof.
  apply (thresholds_do_not_alter_data (answering ok_response)
           (loads (result_object (VList [VStr "uuid"]) (VInt 5) (VInt 5)))
           (GenerateUuids (VInt 1) None) (fresh test_api) (fresh watchful_api)).
  - repeat split.
  - intros r data q b [= <-] Hwf.
    apply well_formed_extraction in Hwf.
    injection Hwf as _ <- <-. split; reflexivity.
Defined.

(** ** The further properties at concrete inputs *)

(** The default client on a body whose counters are a string and [null]. *)
Lemma zero_thresholds_return_data_witness :
  invoke (answering ok_response)
    (loads (result_object (VList [VInt 7]) (VStr "many") VNone))
    (GenerateBlobs (VInt 1) (VInt 128) None) (fresh test_api)
  = (Return (VList [VInt 7]),
     after (fresh test_api) [success_logged]
       [(url test_api, payload_of test_api (GenerateBlobs (VInt 1) (VInt 128) None))]).
Proof.
  apply (zero_thresholds_return_data (answering ok_response)
           (loads (result_object (VList [VInt 7]) (VStr "many") VNone))
           (GenerateBlobs (VInt 1) (VInt 128) None) (fresh test_api) ok_response
           (VList [VInt 7]) (VStr "many") VNone); try reflexivity.
  apply well_formed_extraction. reflexivity.
Defined.

Lemma low_requests_hides_bits_witness :
  _is_low_quota (VInt 5) (VStr "unknown") (fresh watchful_api)
  = (Return true, after (fresh watchful_api) [low_requests_warned] []).
Proof.
  apply (low_requests_hides_bits (VInt 5) (VStr "unknown") (fresh watchful_api)).
  - simpl. lia.
  - reflexivity.
Defined.

Lemma non_numeric_counter_raises_unlogged_witness :
  invoke (answering not_found_response)
    (loads (result_object (VList [VStr "uuid"]) VNone (VInt 1000)))
    (GenerateUuids (VInt 1) None) (fresh watchful_api)
  = (Raise TypeError,
     after (fresh watchful_api) [non_2xx_warned]
       [(url watchful_api, payload_of watchful_api (GenerateUuids (VInt 1) None))]).
Proof.
  apply (non_numeric_counter_raises_unlogged (answering not_found_response)
           (loads (result_object (VList [VStr "uuid"]) VNone (VInt 1000)))
           (GenerateUuids (VInt 1) None) (fresh watchful_api) not_found_response
           (VList [VStr "uuid"]) VNone (VInt 1000)).
  - reflexivity.
  - apply well_formed_extraction. reflexivity.
  - simpl. lia.
  - reflexivity.
Defined.

Lemma extract_result_default_func_witness :
  _extract_result
    (loads (VDict [("result", VDict [("requestsLeft", VInt 3);
                                     ("bitsLeft", VInt 4)])]))
    (Some ok_response) None "get_usage" (fresh test_api)
  = (Return (Some (VDict [("requestsLeft", VInt 3); ("bitsLeft", VInt 4)],
                   VInt 3, VInt 4)),
     fresh test_api).
Proof.
  eapply (extract_result_default_func
            (loads (VDict [("result", VDict [("requestsLeft", VInt 3);
                                             ("bitsLeft", VInt 4)])]))
            ok_response);
    reflexivity.
Defined.

(** A timeout of the transport reaches the caller; it is no [TypeError]. *)
Lemma raised_exceptions_witness :
  OtherException "Timeout" <> ConnectionError
  /\ (OtherException "Timeout" = TypeError
      \/ failing (OtherException "Timeout") (url test_api)
           (payload_of test_api (GetUsage None))
         = Raise (OtherException "Timeout")).
Proof.
  apply (raised_exceptions (failing (OtherException "Timeout")) (loads VNone)
           (GetUsage None) (fresh test_api) (OtherException "Timeout")).
  reflexivity.
Defined.

Lemma returned_value_is_projected_data_witness :
  exists r requests_left bits_left,
    answering ok_response (url test_api)
      (payload_of test_api (GenerateUuids (VInt 1) None)) = Return r
    /\ well_formed
         (loads (result_object (VList [VStr "uuid"]) (VInt 5) (VInt 5)))
         (data_retrieve_func_of (GenerateUuids (VInt 1) None)) (content r)
         (VList [VStr "uuid"]) requests_left bits_left.
Proof.
  apply (returned_value_is_projected_data (answering ok_response)
           (loads (result_object (VList [VStr "uuid"]) (VInt 5) (VInt 5)))
           (GenerateUuids (VInt 1) None) (fresh test_api) (VList [VStr "uuid"])).
  reflexivity.
Defined.

(** A result object with the two counters and no totals. *)
Lemma get_usage_needs_totals_witness :
  get_usage (answering ok_response)
    (loads (VDict [("result", VDict [("bitsLeft", VInt 1000);
                                     ("requestsLeft", VInt 100)])]))
    None (fresh test_api)
  = (Raise TypeError,
     after (fresh test_api) [decode_error_logged]
       [(url test_api, payload_of test_api (GetUsage None))]).
Proof.
  eapply (get_usage_needs_totals (answering ok_response)
            (loads (VDict [("result", VDict [("bitsLeft", VInt 1000);
                                             ("requestsLeft", VInt 100)])]))
            None (fresh test_api) ok_response _ _ KeyError);
    [ reflexivity | reflexivity | reflexivity | left; reflexivity ].
Defined.

Lemma transport_exception_propagates_witness :
  invoke (failing (OtherException "Timeout")) (loads VNone)
    (GenerateUuids (VInt 2) None) (fresh test_api)
  = (Raise (OtherException "Timeout"),
     after (fresh test_api) []
       [(url test_api, payload_of test_api (GenerateUuids (VInt 2) None))]).
Proof.
  apply (transport_exception_propagates (failing (OtherException "Timeout"))
           (loads VNone) (GenerateUuids (VInt 2) None) (fresh test_api)
           (OtherException "Timeout")); reflexivity.
Defined.

(** Status 200 against status 404, the same body. *)
Lemma status_code_does_not_alter_outcome_witness :
  fst (invoke (answering ok_response)
         (loads (result_object (VList [VInt 1]) (VInt 5) (VInt 5)))
         (GenerateIntegers (VInt 1) (VInt 1) (VInt 6) None None None None)
         (fresh watchful_api))
  = fst (invoke (answering not_found_response)
           (loads (result_object (VList [VInt 1]) (VInt 5) (VInt 5)))
           (GenerateIntegers (VInt 1) (VInt 1) (VInt 6) None None None None)
           (fresh watchful_api)).
Proof.
  apply (status_code_does_not_alter_outcome (answering ok_response)
           (answering not_found_response) _ _ _ ok_response not_found_response);
    reflexivity.
Defined.

(** Versions 4 and 5, every other argument left to its default. *)
Lemma url_determines_version_witness :
  url test_api <> url (__init__ (VStr "test_api_key") (Some 5) None None None).
Proof.
  apply (url_determines_version (VStr "test_api_key") (VStr "test_api_key") 4 5
           None None None None None None).
  lia.
Defined.

Lemma get_usage_returns_four_keys_witness :
  exists r decoded result bits_left requests_left total_bits total_requests,
    answering ok_response (url test_api) (payload_of test_api (GetUsage None))
    = Return r
    /\ loads (VDict [("result",
                      VDict [("bitsLeft", VInt 1000);
                             ("requestsLeft", VInt 100);
                             ("totalBits", VInt 2000);
                             ("totalRequests", VInt 200);
                             ("advisoryDelay", VInt 0)])]) (content r)
       = Return decoded
    /\ getitem decoded "result" = Return result
    /\ getitem result "bitsLeft" = Return bits_left
    /\ getitem result "requestsLeft" = Return requests_left
    /\ getitem result "totalBits" = Return total_bits
    /\ getitem result "totalRequests" = Return total_requests
    /\ VDict [("bits_left", VInt 1000);
              ("requests_left", VInt 100);
              ("total_bits", VInt 2000);
              ("total_requests", VInt 200)]
       = VDict [("bits_left", bits_left);
                ("requests_left", requests_left);
                ("total_bits", total_bits);
                ("total_requests", total_requests)].
Proof.
  apply (get_usage_returns_four_keys (answering ok_response)
           (loads (VDict [("result",
                           VDict [("bitsLeft", VInt 1000);
                                  ("requestsLeft", VInt 100);
                                  ("totalBits", VInt 2000);
                                  ("totalRequests", VInt 200);
                                  ("advisoryDelay", VInt 0)])]))
           None (fresh test_api)).
  reflexivity.
Defined.
